(** * Electronics Inventory: the CRUD layer of app.py and db.py

    A shallow embedding of the request handlers of [app.py] and of the
    storage helpers of [db.py].  The SQLite file is an explicit value of
    type [DB] that every handler reads and returns; an SQL statement is a
    function on it that raises [OperationalError] when it names a table or a
    column the stored schema does not have.

    Modelling boundary.  Strings are byte strings; whitespace and letter
    case are the ASCII ones.  Python integers are [Z]; SQLite keeps an
    integer in 64 bits, so binding a larger one raises and a larger
    integer text becomes a REAL.  Template rendering and the QR
    encoder are collaborators: a rendered page is the template name with
    its context, the encoder is a section variable. *)

From Stdlib Require Import String Ascii List ZArith Lia Bool.
From Stdlib Require Import DecimalString DecimalPos DecimalZ.
From Stdlib Require Import Sorted Permutation.
Import ListNotations.

Local Open Scope string_scope.
Local Open Scope Z_scope.

(** ** Python string helpers *)

Module Py.

(** [str.isspace] on one ASCII character: TAB..CR, FS..US and the space. *)
Definition is_space (c : ascii) : bool :=
  let n := nat_of_ascii c in
  ((9 <=? n)%nat && (n <=? 13)%nat) || ((28 <=? n)%nat && (n <=? 32)%nat).

Fixpoint lstrip (s : string) : string :=
  match s with
  | EmptyString => EmptyString
  | String c s' => if is_space c then lstrip s' else s
  end.

Fixpoint rstrip (s : string) : string :=
  match s with
  | EmptyString => EmptyString
  | String c s' =>
      match rstrip s' with
      | EmptyString => if is_space c then EmptyString else String c EmptyString
      | r => String c r
      end
  end.

(** [s.strip()] *)
Definition strip (s : string) : string := lstrip (rstrip s).

(** Truth value of a string: [if s:] *)
Definition truthy (s : string) : bool :=
  match s with EmptyString => false | _ => true end.

Definition digit_val (c : ascii) : option Z :=
  let n := nat_of_ascii c in
  if ((48 <=? n)%nat && (n <=? 57)%nat)%bool then Some (Z.of_nat n - 48) else None.

(** The digit part of an integer literal as [int()] reads it: decimal
    digits, single underscores allowed between two digits.  [seen] tells
    whether the previous character was a digit. *)
Fixpoint int_digits (acc : Z) (seen : bool) (s : string) : option Z :=
  match s with
  | EmptyString => if seen then Some acc else None
  | String c s' =>
      if Ascii.eqb c "_" then
        if seen then int_digits acc false s' else None
      else
        match digit_val c with
        | Some d => int_digits (10 * acc + d) true s'
        | None => None
        end
  end.

(** [sys.get_int_max_str_digits()], the default of CPython. *)
Definition int_max_str_digits : nat := 4300.

(** How many decimal digits a text has. *)
Fixpoint count_digits (s : string) : nat :=
  match s with
  | EmptyString => 0%nat
  | String c s' =>
      (match digit_val c with Some _ => 1 | None => 0 end + count_digits s')%nat
  end.

(** [int(s)] for a string; [None] stands for [ValueError], which is also
    what a text of more than [int_max_str_digits] digits gives. *)
Definition int (s : string) : option Z :=
  if (int_max_str_digits <? count_digits (strip s))%nat then None
  else
    match strip s with
    | String c s' =>
        if Ascii.eqb c "-" then option_map Z.opp (int_digits 0 false s')
        else if Ascii.eqb c "+" then int_digits 0 false s'
        else int_digits 0 false (String c s')
    | EmptyString => None
    end.

(** [str(n)] for an integer. *)
Definition str (n : Z) : string := NilZero.string_of_int (Z.to_int n).

End Py.

(** ** SQLite value helpers *)

Module Sql.

(** ASCII lower-casing, as the LIKE operator folds case. *)
Definition lower (c : ascii) : ascii :=
  let n := nat_of_ascii c in
  if ((65 <=? n)%nat && (n <=? 90)%nat)%bool then ascii_of_nat (n + 32) else c.

(** [s LIKE p] without ESCAPE: [%] matches any run of characters, [_] any
    one character, any other character matches itself up to ASCII case. *)
Fixpoint like (p s : string) {struct p} : bool :=
  match p with
  | EmptyString => match s with EmptyString => true | _ => false end
  | String c p' =>
      if Ascii.eqb c "%" then
        (fix star (t : string) : bool :=
           like p' t ||
           match t with
           | EmptyString => false
           | String _ t' => star t'
           end) s
      else
        match s with
        | EmptyString => false
        | String d s' =>
            (Ascii.eqb c "_" || Ascii.eqb (lower c) (lower d)) && like p' s'
        end
  end.

(** The integers SQLite stores: signed, 64 bits. *)
Definition int64_min : Z := - 2 ^ 63.
Definition int64_max : Z := 2 ^ 63 - 1.

Definition in_int64 (n : Z) : bool := (int64_min <=? n) && (n <=? int64_max).

(** What a column of INTEGER affinity keeps. *)
Inductive cell : Type :=
| CInt (n : Z)           (* storage class INTEGER *)
| CReal (n : Z)          (* storage class REAL: the double nearest to n *)
| COther (raw : string). (* text that is no integer literal: kept as it is *)

(** A text bound to a column of INTEGER affinity is converted when it is a
    well-formed integer literal: to an INTEGER when it fits in 64 bits, to
    a REAL when it does not.  The texts the handlers bind to such a column
    are the decimal numerals [Py.str] writes. *)
Definition integer_affinity (s : string) : cell :=
  match NilZero.int_of_string s with
  | Some d => if in_int64 (Z.of_int d) then CInt (Z.of_int d)
              else CReal (Z.of_int d)
  | None => COther s
  end.

End Sql.

(** ** Sorting, for ORDER BY *)

Section OrderBy.
Context {A : Type}.
Variable before : A -> A -> bool.

Fixpoint place (x : A) (l : list A) : list A :=
  match l with
  | [] => [x]
  | y :: l' => if before x y then x :: l else y :: place x l'
  end.

Definition order_by (l : list A) : list A := fold_right place [] l.
End OrderBy.

(** ** The database *)

(** A row of [parts].  Every text column holds a string: the handlers
    never bind anything else. *)
Record Part : Type := mkPart {
  id : Z;
  category : string;
  subcategory : string;
  description : string;
  package : string;
  container_id : string;
  quantity : Sql.cell;
  notes : string;
  datasheet_url : string;
  pinout_url : string;
  updated_at : string
}.

Record DB : Type := mkDB {
  db_tables : list (string * list string);        (* table name, column names *)
  db_indexes : list (string * (string * string)); (* index name, table, column *)
  parts : list Part;                              (* rows of parts *)
  parts_seq : Z;                                  (* AUTOINCREMENT: largest id given so far *)
  containers : list (string * string);            (* rows of containers: code, name *)
  categories : list string;                       (* rows of categories *)
  subcategories : list string                     (* rows of subcategories *)
}.

(** The file [get_conn] creates when there is none. *)
Definition empty_db : DB := mkDB [] [] [] 0 [] [] [].

Definition with_tables (db : DB) (t : list (string * list string)) : DB :=
  mkDB t (db_indexes db) (parts db) (parts_seq db)
       (containers db) (categories db) (subcategories db).

Definition with_indexes (db : DB) (i : list (string * (string * string))) : DB :=
  mkDB (db_tables db) i (parts db) (parts_seq db)
       (containers db) (categories db) (subcategories db).

Definition with_parts (db : DB) (ps : list Part) (seq : Z) : DB :=
  mkDB (db_tables db) (db_indexes db) ps seq
       (containers db) (categories db) (subcategories db).

Definition with_containers (db : DB) (cs : list (string * string)) : DB :=
  mkDB (db_tables db) (db_indexes db) (parts db) (parts_seq db)
       cs (categories db) (subcategories db).

Definition with_categories (db : DB) (cs : list string) : DB :=
  mkDB (db_tables db) (db_indexes db) (parts db) (parts_seq db)
       (containers db) cs (subcategories db).

Definition with_subcategories (db : DB) (cs : list string) : DB :=
  mkDB (db_tables db) (db_indexes db) (parts db) (parts_seq db)
       (containers db) (categories db) cs.

(** ** Results and the handler monad *)

(** What a statement raises. *)
Inductive exn : Type :=
| NoSuchTable (t : string)     (* sqlite3.OperationalError *)
| NoSuchColumn (t c : string)  (* sqlite3.OperationalError *)
| DatabaseFull                 (* sqlite3.OperationalError: no id is left *)
| OverflowError.               (* Python int too large for SQLite INTEGER *)

Inductive result (A : Type) : Type :=
| Ok (a : A)
| Raise (e : exn).
Arguments Ok {A} a.
Arguments Raise {A} e.

(** A computation reads the database and leaves one behind, also when it
    raises: what was committed before the exception stays. *)
Definition M (A : Type) : Type := DB -> result A * DB.

Definition ret {A} (a : A) : M A := fun db => (Ok a, db).

Definition bind {A B} (m : M A) (k : A -> M B) : M B :=
  fun db =>
    match m db with
    | (Ok a, db') => k a db'
    | (Raise e, db') => (Raise e, db')
    end.

Notation "x <- m ;; k" := (bind m (fun x => k))
  (at level 61, m at next level, right associativity).
Notation "m ;;; k" := (bind m (fun _ => k))
  (at level 61, right associativity).

(** [with get_conn() as conn: ...]: commit when the block ends, roll back
    when it raises. *)
Definition with_conn {A} (m : M A) : M A :=
  fun db =>
    match m db with
    | (Ok a, db') => (Ok a, db')
    | (Raise e, _) => (Raise e, db)
    end.

(** ** Schema checks of a statement *)

Fixpoint assoc {V : Type} (k : string) (l : list (string * V)) : option V :=
  match l with
  | [] => None
  | (k', v) :: l' => if String.eqb k k' then Some v else assoc k l'
  end.

Definition mem (x : string) (l : list string) : bool :=
  existsb (String.eqb x) l.

Fixpoint first_missing (cols have : list string) : option string :=
  match cols with
  | [] => None
  | c :: cols' => if mem c have then first_missing cols' have else Some c
  end.

(** The statement names table [t] and its columns [cols]. *)
Definition require (t : string) (cols : list string) : M unit :=
  fun db =>
    match assoc t (db_tables db) with
    | None => (Raise (NoSuchTable t), db)
    | Some have =>
        match first_missing cols have with
        | Some c => (Raise (NoSuchColumn t c), db)
        | None => (Ok tt, db)
        end
    end.

(** Binding a Python integer to a statement, which happens after the
    statement was prepared against the schema. *)
Definition bind_int (n : Z) : M unit :=
  fun db =>
    if Sql.in_int64 n then (Ok tt, db) else (Raise OverflowError, db).

(** ** db.py *)

Definition parts_columns_init : list string :=
  ["id"; "category"; "subcategory"; "description"; "package";
   "container_id"; "quantity"; "notes"; "updated_at"].

(** CREATE TABLE IF NOT EXISTS *)
Definition create_table_if_not_exists (t : string) (cols : list string) : M unit :=
  fun db =>
    match assoc t (db_tables db) with
    | Some _ => (Ok tt, db)
    | None => (Ok tt, with_tables db (db_tables db ++ [(t, cols)])%list)
    end.

(** CREATE INDEX IF NOT EXISTS name ON t(col) *)
Definition create_index_if_not_exists (name t col : string) : M unit :=
  fun db =>
    match assoc name (db_indexes db) with
    | Some _ => (Ok tt, db)
    | None =>
        (require t [col] ;;;
         fun db' => (Ok tt, with_indexes db' (db_indexes db' ++ [(name, (t, col))])%list)) db
    end.

(** The four statements are schema statements: sqlite3 opens no
    transaction for them, so each takes effect as it runs, and when a later
    one raises, the rollback of the [with] block has nothing to undo. *)
Definition init_db : M unit :=
  create_table_if_not_exists "parts" parts_columns_init ;;;
  create_index_if_not_exists "idx_parts_category" "parts" "category" ;;;
  create_index_if_not_exists "idx_parts_container" "parts" "container_id" ;;;
  create_index_if_not_exists "idx_parts_desc" "parts" "description".

Definition list_containers : M (list (string * string)) :=
  with_conn
    (require "containers" ["code"; "name"] ;;;
     fun db =>
       (Ok (order_by (fun a b => String.leb (fst a) (fst b)) (containers db)), db)).

Definition list_categories : M (list string) :=
  with_conn
    (require "categories" ["name"] ;;;
     fun db => (Ok (order_by String.leb (categories db)), db)).

Definition list_subcategories : M (list string) :=
  with_conn
    (require "subcategories" ["name"] ;;;
     fun db => (Ok (order_by String.leb (subcategories db)), db)).

(** Modelled from the spec: the declarations of [containers], [categories]
    and [subcategories] are not in db.py.  The spec has a container
    "identified by a code" and a category or subcategory "identified by
    name": the key column is unique, which is what INSERT OR IGNORE needs
    to ignore a row that is already there. *)
Definition insert_or_ignore_container (code name : string) : M unit :=
  fun db =>
    if mem code (map fst (containers db)) then (Ok tt, db)
    else (Ok tt, with_containers db (containers db ++ [(code, name)])%list).

Definition insert_or_ignore_category (name : string) : M unit :=
  fun db =>
    if mem name (categories db) then (Ok tt, db)
    else (Ok tt, with_categories db (categories db ++ [name])%list).

Definition insert_or_ignore_subcategory (name : string) : M unit :=
  fun db =>
    if mem name (subcategories db) then (Ok tt, db)
    else (Ok tt, with_subcategories db (subcategories db ++ [name])%list).

Definition ensure_container (code : string) : M unit :=
  let code := Py.strip code in
  if negb (Py.truthy code) then ret tt
  else
    with_conn
      (require "containers" ["code"; "name"] ;;;
       insert_or_ignore_container code code).

Definition ensure_category (name : string) : M unit :=
  let name := Py.strip name in
  if negb (Py.truthy name) then ret tt
  else
    with_conn
      (require "categories" ["name"] ;;;
       insert_or_ignore_category name).

Definition ensure_subcategory (name : string) : M unit :=
  let name := Py.strip name in
  if negb (Py.truthy name) then ret tt
  else
    with_conn
      (require "subcategories" ["name"] ;;;
       insert_or_ignore_subcategory name).

(** ** app.py *)

Definition BASE_URL : string := "http://192.168.8.20:8001".

Definition ALLOWED_EDIT_FIELDS : list string :=
  ["category"; "subcategory"; "description"; "package"; "container_id";
   "quantity"; "notes"; "datasheet_url"; "pinout_url"].

Inductive label : Type :=
| AssetLabel (code qr : string)
| ContentLabel (code text : string).

(** What a template is rendered with. *)
Inductive page : Type :=
| TablePage (rows : list Part)
| RowPage (row : Part)
| EditCellPage (row : Part) (field : string)
               (containers : list (string * string)) (categories : list string)
| LabelsPage (labels : list label) (preset : string).

Inductive response : Type :=
| HTMLResponse (body : string) (status_code : Z)
| Render (template : string) (context : page).

Definition status (r : response) : Z :=
  match r with
  | HTMLResponse _ s => s
  | Render _ _ => 200
  end.

(** ORDER BY updated_at DESC, id DESC: does [a] come no later than [b]? *)
Definition newer_first (a b : Part) : bool :=
  match String.compare (updated_at a) (updated_at b) with
  | Gt => true
  | Lt => false
  | Eq => id b <=? id a
  end.

(** LIMIT n: a negative n is no limit. *)
Definition sql_limit {A} (n : Z) (l : list A) : list A :=
  if n <? 0 then l else firstn (Z.to_nat n) l.

(** One conjunct of a WHERE clause: the columns it names and its test. *)
Record conjunct : Type := mkConjunct {
  names : list string;
  holds : Part -> bool
}.

(** The WHERE clause [fetch_parts] assembles: one conjunct per filter that
    is not blank. *)
Definition q_clause (q : string) : list conjunct :=
  if Py.truthy (Py.strip q) then
    let pat := "%" ++ Py.strip q ++ "%" in
    [mkConjunct ["description"; "notes"; "subcategory"; "package"]
       (fun p => Sql.like pat (description p)
                 || Sql.like pat (notes p)
                 || Sql.like pat (subcategory p)
                 || Sql.like pat (package p))]
  else [].

Definition category_clause (c : string) : list conjunct :=
  if Py.truthy (Py.strip c) then
    [mkConjunct ["category"] (fun p => String.eqb (category p) (Py.strip c))]
  else [].

Definition container_clause (c : string) : list conjunct :=
  if Py.truthy (Py.strip c) then
    [mkConjunct ["container_id"]
       (fun p => String.eqb (container_id p) (Py.strip c))]
  else [].

Definition where_clause (q c k : string) : list conjunct :=
  (q_clause q ++ category_clause c ++ container_clause k)%list.

Definition selected (w : list conjunct) (p : Part) : bool :=
  forallb (fun c => holds c p) w.

Definition fetch_parts (q category container_id : string) (limit : Z)
  : M (list Part) :=
  let w := where_clause q category container_id in
  with_conn
    (require "parts" (flat_map names w ++ ["updated_at"; "id"])%list ;;;
     fun db =>
       (Ok (sql_limit limit (order_by newer_first (filter (selected w) (parts db)))),
        db)).

Definition partial_table (q category container_id : string) : M response :=
  rows <- fetch_parts q category container_id 500 ;;
  ret (Render "_table.html" (TablePage rows)).

Definition container_view (code : string) : M response :=
  rows <- fetch_parts "" "" code 500 ;;
  ret (Render "container.html" (TablePage rows)).

(** The id AUTOINCREMENT gives the next row. *)
Definition next_id (db : DB) : Z :=
  1 + fold_right Z.max (parts_seq db) (map id (parts db)).

(** The INSERT of [add_part]; [quantity] is the one integer it binds.
    AUTOINCREMENT refuses the row when the largest id has been given. *)
Definition insert_part (quantity : Z) (mk : Z -> Part) : M unit :=
  require "parts"
    ["category"; "subcategory"; "description"; "package"; "container_id";
     "quantity"; "notes"; "datasheet_url"; "pinout_url"; "updated_at"] ;;;
  bind_int quantity ;;;
  fun db =>
    let i := next_id db in
    if Sql.int64_max <? i then (Raise DatabaseFull, db)
    else (Ok tt, with_parts db (parts db ++ [mk i])%list i).

(** POST /parts.  [now] is what [datetime('now')] gives. *)
Definition add_part
  (category subcategory description package container_id : string)
  (quantity : Z) (notes datasheet_url pinout_url : string) (now : string)
  : M response :=
  let category := Py.strip category in
  let description := Py.strip description in
  ensure_category category ;;;
  ensure_container container_id ;;;
  ensure_subcategory subcategory ;;;
  with_conn
    (insert_part (Z.max quantity 0) (fun i =>
       mkPart i category (Py.strip subcategory) description (Py.strip package)
              (Py.strip container_id) (Sql.CInt (Z.max quantity 0))
              (Py.strip notes) (Py.strip datasheet_url) (Py.strip pinout_url)
              now)) ;;;
  rows <- fetch_parts "" "" "" 500 ;;
  ret (Render "_table.html" (TablePage rows)).

(** POST /parts/{part_id}/delete *)
Definition delete_part (part_id : Z) : M response :=
  with_conn
    (require "parts" ["id"] ;;;
     bind_int part_id ;;;
     fun db =>
       (Ok tt,
        with_parts db (filter (fun p => negb (id p =? part_id)) (parts db))
                   (parts_seq db))) ;;;
  rows <- fetch_parts "" "" "" 500 ;;
  ret (Render "_table.html" (TablePage rows)).

(** SELECT * FROM parts WHERE id = ?, fetchone *)
Definition select_part (part_id : Z) : M (option Part) :=
  require "parts" ["id"] ;;;
  bind_int part_id ;;;
  fun db => (Ok (find (fun p => id p =? part_id) (parts db)), db).

(** GET /parts/{part_id}/edit/{field} *)
Definition edit_cell (part_id : Z) (field : string) : M response :=
  if negb (mem field ALLOWED_EDIT_FIELDS) then
    ret (HTMLResponse "Invalid field" 400)
  else
    row <- with_conn (select_part part_id) ;;
    match row with
    | None => ret (HTMLResponse "Not found" 404)
    | Some r =>
        cs <- list_containers ;;
        gs <- list_categories ;;
        ret (Render "_edit_cell.html" (EditCellPage r field cs gs))
    end.

(** SET field = value, updated_at = now on one row. *)
Definition set_field (field value now : string) (p : Part) : Part :=
  let p' :=
    if String.eqb field "category" then
      mkPart (id p) value (subcategory p) (description p) (package p)
             (container_id p) (quantity p) (notes p) (datasheet_url p)
             (pinout_url p) (updated_at p)
    else if String.eqb field "subcategory" then
      mkPart (id p) (category p) value (description p) (package p)
             (container_id p) (quantity p) (notes p) (datasheet_url p)
             (pinout_url p) (updated_at p)
    else if String.eqb field "description" then
      mkPart (id p) (category p) (subcategory p) value (package p)
             (container_id p) (quantity p) (notes p) (datasheet_url p)
             (pinout_url p) (updated_at p)
    else if String.eqb field "package" then
      mkPart (id p) (category p) (subcategory p) (description p) value
             (container_id p) (quantity p) (notes p) (datasheet_url p)
             (pinout_url p) (updated_at p)
    else if String.eqb field "container_id" then
      mkPart (id p) (category p) (subcategory p) (description p) (package p)
             value (quantity p) (notes p) (datasheet_url p)
             (pinout_url p) (updated_at p)
    else if String.eqb field "quantity" then
      mkPart (id p) (category p) (subcategory p) (description p) (package p)
             (container_id p) (Sql.integer_affinity value) (notes p)
             (datasheet_url p) (pinout_url p) (updated_at p)
    else if String.eqb field "notes" then
      mkPart (id p) (category p) (subcategory p) (description p) (package p)
             (container_id p) (quantity p) value (datasheet_url p)
             (pinout_url p) (updated_at p)
    else if String.eqb field "datasheet_url" then
      mkPart (id p) (category p) (subcategory p) (description p) (package p)
             (container_id p) (quantity p) (notes p) value
             (pinout_url p) (updated_at p)
    else if String.eqb field "pinout_url" then
      mkPart (id p) (category p) (subcategory p) (description p) (package p)
             (container_id p) (quantity p) (notes p) (datasheet_url p)
             value (updated_at p)
    else p in
  mkPart (id p') (category p') (subcategory p') (description p') (package p')
         (container_id p') (quantity p') (notes p') (datasheet_url p')
         (pinout_url p') now.

(** UPDATE parts SET {field} = ?, updated_at = datetime('now') WHERE id = ? *)
Definition update_part (field value now : string) (part_id : Z) : M unit :=
  require "parts" [field; "updated_at"; "id"] ;;;
  bind_int part_id ;;;
  fun db =>
    (Ok tt,
     with_parts db
       (map (fun p => if id p =? part_id then set_field field value now p else p)
            (parts db))
       (parts_seq db)).

(** The value [save_cell] writes for the quantity column. *)
Definition normalize_quantity (value : string) : string :=
  let q :=
    if String.eqb value "" then 0
    else match Py.int value with
         | Some n => n
         | None => 0          (* except ValueError *)
         end in
  Py.str (Z.max q 0).

(** POST /parts/{part_id}/edit/{field} *)
Definition save_cell (part_id : Z) (field value : string) (now : string)
  : M response :=
  if negb (mem field ALLOWED_EDIT_FIELDS) then
    ret (HTMLResponse "Invalid field" 400)
  else
    let value := Py.strip value in
    let value := if String.eqb field "quantity" then normalize_quantity value
                 else value in
    value <-
      (if String.eqb field "container_id" then ensure_container value ;;; ret value
       else if String.eqb field "category" then ensure_category value ;;; ret value
       else if String.eqb field "subcategory" then ensure_subcategory value ;;; ret value
       else if mem field ["datasheet_url"; "pinout_url"] then ret (Py.strip value)
       else ret value) ;;
    row <- with_conn (update_part field value now part_id ;;; select_part part_id) ;;
    match row with
    | None => ret (HTMLResponse "Not found" 404)
    | Some r => ret (Render "_row.html" (RowPage r))
    end.

Section Labels.
(** The QR encoder: text to base64 PNG. *)
Variable qr_base64 : string -> string.
(** The submitted form: [form.get]. *)
Variable form : string -> option string.

(** [x or ""] *)
Definition or_empty (x : option string) : string :=
  match x with
  | Some s => if Py.truthy s then s else ""
  | None => ""
  end.

(** One turn of the loop over [code]. *)
Definition labels_step (mode : string) (labels : list label) (c : string)
  : list label :=
  let labels :=
    if mem mode ["asset"; "both"] then
      (labels ++ [AssetLabel c (qr_base64 (BASE_URL ++ "/containers/" ++ c))])%list
    else labels in
  if mem mode ["content"; "both"] then
    (labels ++ [ContentLabel c (Py.strip (or_empty (form ("text_" ++ c))))])%list
  else labels.

(** POST /print/labels *)
Definition print_labels (preset mode : string) (code : list string) : response :=
  match code with
  | [] => HTMLResponse "No containers selected" 400
  | _ =>
      Render "labels_print.html"
             (LabelsPage (fold_left (labels_step mode) code []) preset)
  end.
End Labels.

(** ** The schema of the spec *)

(** Modelled from the spec: the persisted schema.  db.py declares [parts]
    only; the spec's data model has the two URL fields on a part and lists
    the three lookup tables with their columns. *)
Definition spec_tables : list (string * list string) :=
  [("parts", (parts_columns_init ++ ["datasheet_url"; "pinout_url"])%list);
   ("containers", ["code"; "name"]);
   ("categories", ["name"]);
   ("subcategories", ["name"])].

Definition has_spec_schema (db : DB) : Prop := db_tables db = spec_tables.

(** The key of each lookup table is unique. *)
Definition lookup_keys_unique (db : DB) : Prop :=
  NoDup (map fst (containers db)) /\ NoDup (categories db) /\ NoDup (subcategories db).

(** ** Reading the listing *)

(** The filter of [fetch_parts] as one test: a blank filter lets every row
    through, the query is a LIKE pattern on four columns. *)
Definition matches (q c k : string) (p : Part) : bool :=
  (negb (Py.truthy (Py.strip q))
   || Sql.like ("%" ++ Py.strip q ++ "%") (description p)
   || Sql.like ("%" ++ Py.strip q ++ "%") (notes p)
   || Sql.like ("%" ++ Py.strip q ++ "%") (subcategory p)
   || Sql.like ("%" ++ Py.strip q ++ "%") (package p))
  && (negb (Py.truthy (Py.strip c)) || String.eqb (category p) (Py.strip c))
  && (negb (Py.truthy (Py.strip k)) || String.eqb (container_id p) (Py.strip k)).

(** [q] starts [s], up to ASCII case. *)
Fixpoint ci_prefix (q s : string) : bool :=
  match q, s with
  | EmptyString, _ => true
  | String _ _, EmptyString => false
  | String a q', String b s' =>
      Ascii.eqb (Sql.lower a) (Sql.lower b) && ci_prefix q' s'
  end.

(** [q] occurs in [s], up to ASCII case. *)
Fixpoint ci_substring (q s : string) : bool :=
  ci_prefix q s
  || match s with
     | EmptyString => false
     | String _ s' => ci_substring q s'
     end.



(** The default of [x or ""] spelled out. *)
Definition form_text (form : string -> option string) (c : string) : string :=
  match form ("text_" ++ c) with
  | Some t => t
  | None => ""
  end.

(** The value an edit of the quantity cell stores. *)
Definition edited_quantity (value : string) : Z :=
  Z.max (match Py.int (Py.strip value) with Some k => k | None => 0 end) 0.

(** ** Sample databases *)

Definition blank_db : DB := mkDB spec_tables [] [] 0 [] [] [].

Definition sample_part : Part :=
  mkPart 1 "Cap" "" "x" "" "B12" (Sql.CInt 3) "" "" "" "2025-01-02 00:00:00".

Definition sample_db : DB :=
  mkDB spec_tables [] [sample_part] 1 [("B12", "B12")] ["Cap"] [].

(** A fresh file after [init_db]. *)
Definition fresh_db : DB :=
  mkDB [("parts", parts_columns_init)]
       [("idx_parts_category", ("parts", "category"));
        ("idx_parts_container", ("parts", "container_id"));
        ("idx_parts_desc", ("parts", "description"))]
       [] 0 [] [] [].

(** A file that has the lookup tables and no [parts] yet. *)
Definition lookups_only_db : DB :=
  mkDB [("containers", ["code"; "name"]); ("categories", ["name"]);
        ("subcategories", ["name"])] [] [] 0 [] [] [].

(** ** Insert-if-absent, as a function on the tables *)

Definition add_category (n : string) (db : DB) : DB :=
  if Py.truthy n && negb (mem n (categories db))
  then with_categories db (categories db ++ [n])%list else db.

Definition add_container (n : string) (db : DB) : DB :=
  if Py.truthy n && negb (mem n (map fst (containers db)))
  then with_containers db (containers db ++ [(n, n)])%list else db.

Definition add_subcategory (n : string) (db : DB) : DB :=
  if Py.truthy n && negb (mem n (subcategories db))
  then with_subcategories db (subcategories db ++ [n])%list else db.

(** The row [add_part] inserts. *)
Definition new_part
  (category subcategory description package container_id : string)
  (quantity : Z) (notes datasheet_url pinout_url now : string) (i : Z) : Part :=
  mkPart i (Py.strip category) (Py.strip subcategory) (Py.strip description)
         (Py.strip package) (Py.strip container_id) (Sql.CInt (Z.max quantity 0))
         (Py.strip notes) (Py.strip datasheet_url) (Py.strip pinout_url) now.

(** The unfiltered listing: [fetch_parts()]. *)
Definition listing (db : DB) : list Part :=
  sql_limit 500 (order_by newer_first (filter (selected []) (parts db))).

(** The lookup row an edit of [field] ensures. *)
Definition after_ensure (field v : string) (db : DB) : DB :=
  if String.eqb field "container_id" then add_container v db
  else if String.eqb field "category" then add_category v db
  else if String.eqb field "subcategory" then add_subcategory v db
  else db.

(** The value an edit of [field] binds to the UPDATE. *)
Definition bound_value (field value : string) : string :=
  if String.eqb field "quantity" then normalize_quantity (Py.strip value)
  else Py.strip value.

(** The two labels of one container in mode [both]. *)
Definition both_labels (qr_base64 : string -> string)
  (form : string -> option string) (c : string) : list label :=
  [AssetLabel c (qr_base64 (BASE_URL ++ "/containers/" ++ c));
   ContentLabel c (Py.strip (form_text form c))].

(** ** The remaining handlers of app.py *)

(** TRIM(X) of SQLite: spaces are removed from both ends, nothing else. *)
Fixpoint sql_ltrim (s : string) : string :=
  match s with
  | EmptyString => EmptyString
  | String c s' => if Ascii.eqb c " " then sql_ltrim s' else s
  end.

Fixpoint sql_rtrim (s : string) : string :=
  match s with
  | EmptyString => EmptyString
  | String c s' =>
      match sql_rtrim s' with
      | EmptyString => if Ascii.eqb c " " then EmptyString else String c EmptyString
      | r => String c r
      end
  end.

Definition sql_trim (s : string) : string := sql_ltrim (sql_rtrim s).

(** SELECT DISTINCT TRIM(col) AS v FROM parts
    WHERE col IS NOT NULL AND TRIM(col) <> '' ORDER BY v,
    for a text column read by [get]. *)
Definition distinct_trimmed (get : Part -> string) (db : DB) : list string :=
  order_by String.leb
    (nodup string_dec
       (map sql_trim
          (filter (fun v => negb (String.eqb (sql_trim v) ""))
                  (map get (parts db))))).

Definition list_categories_in_use : M (list string) :=
  with_conn
    (require "parts" ["category"] ;;;
     fun db => (Ok (distinct_trimmed category db), db)).

Definition list_containers_in_use : M (list string) :=
  with_conn
    (require "parts" ["container_id"] ;;;
     fun db => (Ok (distinct_trimmed container_id db), db)).

(** What [index] renders "index.html" with. *)
Record index_context : Type := mkIndex {
  ix_parts : list Part;
  ix_q : string;
  ix_category : string;
  ix_container_id : string;
  ix_categories : list string;
  ix_containers : list string;
  ix_subcategories : list string
}.

(** GET /.  [list_subcategories] is imported, so it is in [globals()]. *)
Definition index (q category container_id : string) : M index_context :=
  rows <- fetch_parts q category container_id 500 ;;
  cats <- list_categories_in_use ;;
  conts <- list_containers_in_use ;;
  subs <- list_subcategories ;;
  ret (mkIndex rows q category container_id cats conts subs).

(** GET /containers/labels: the containers offered, the presets and the
    modes. *)
Definition container_labels
  : M (list string * list string * list (string * string)) :=
  conts <- list_containers_in_use ;;
  ret (conts, ["3348"; "3425"; "3666"],
       [("asset", "Asset (QR)"); ("content", "Content (text)"); ("both", "Both")]).

(** The columns of the export, in order. *)
Definition export_fieldnames : list string :=
  ["id"; "category"; "subcategory"; "description"; "package"; "container_id";
   "quantity"; "notes"; "updated_at"].

(** A cell as [csv] writes it: [str] of an integer, a text as it is, and
    [str] of a float, which [real_text] stands for. *)
Definition cell_text (real_text : Z -> string) (c : Sql.cell) : string :=
  match c with
  | Sql.CInt n => Py.str n
  | Sql.CReal n => real_text n
  | Sql.COther raw => raw
  end.

(** The values of one row under [export_fieldnames]; the keys of the row
    that are no field name are ignored. *)
Definition export_record (real_text : Z -> string) (p : Part) : list string :=
  [Py.str (id p); category p; subcategory p; description p; package p;
   container_id p; cell_text real_text (quantity p); notes p; updated_at p].

(** Does the excel dialect quote this character's field? *)
Definition csv_special (c : ascii) : bool :=
  Ascii.eqb c "," || Ascii.eqb c "034" || Ascii.eqb c "013" || Ascii.eqb c "010".

Fixpoint csv_needs_quotes (s : string) : bool :=
  match s with
  | EmptyString => false
  | String c s' => csv_special c || csv_needs_quotes s'
  end.

(** Every quote character doubled. *)
Fixpoint csv_double_quotes (s : string) : string :=
  match s with
  | EmptyString => EmptyString
  | String c s' =>
      if Ascii.eqb c "034" then String c (String c (csv_double_quotes s'))
      else String c (csv_double_quotes s')
  end.

(** One field, QUOTE_MINIMAL. *)
Definition csv_field (s : string) : string :=
  if csv_needs_quotes s
  then String "034" (csv_double_quotes s ++ String "034" EmptyString)
  else s.

Fixpoint csv_join (fields : list string) : string :=
  match fields with
  | [] => EmptyString
  | [f] => f
  | f :: rest => f ++ String "," (csv_join rest)
  end.

(** One record with its line terminator CR LF. *)
Definition csv_row (fields : list string) : string :=
  csv_join (map csv_field fields) ++ String "013" (String "010" EmptyString).

(** [writeheader] and [writerows]. *)
Definition csv_text (real_text : Z -> string) (rows : list Part) : string :=
  fold_left (fun buf p => buf ++ csv_row (export_record real_text p)) rows
            (csv_row export_fieldnames).

(** GET /export.csv: the body of the attachment. *)
Definition export_csv (real_text : Z -> string)
  (q category container_id : string) : M string :=
  rows <- fetch_parts q category container_id 100000 ;;
  ret (csv_text real_text rows).

(** ** Invariants of the stored data *)

(** A computation that leaves the database as it found it. *)
Definition read_only {A} (m : M A) : Prop := forall db, snd (m db) = db.

(** Ids are distinct and none is above the AUTOINCREMENT counter. *)
Definition ids_fresh (db : DB) : Prop :=
  NoDup (map id (parts db))
  /\ Forall (fun p => id p <= parts_seq db) (parts db).

(** Every lookup value a part names is a row of its lookup table. *)
Definition lookups_cover (db : DB) : Prop :=
  Forall (fun p =>
            (category p <> "" -> In (category p) (categories db))
            /\ (container_id p <> "" ->
                In (container_id p) (map fst (containers db)))
            /\ (subcategory p <> "" -> In (subcategory p) (subcategories db)))
         (parts db).

(** The text columns an edit can address, with their readers. *)
Definition text_column (f : string) : option (Part -> string) :=
  if String.eqb f "category" then Some category
  else if String.eqb f "subcategory" then Some subcategory
  else if String.eqb f "description" then Some description
  else if String.eqb f "package" then Some package
  else if String.eqb f "container_id" then Some container_id
  else if String.eqb f "notes" then Some notes
  else if String.eqb f "datasheet_url" then Some datasheet_url
  else if String.eqb f "pinout_url" then Some pinout_url
  else None.

Definition two_parts_db : DB :=
  mkDB spec_tables []
       [sample_part;
        mkPart 2 "Resistor" "smd" "10k, 1%" "0603" "A1" (Sql.CInt 100)
               "keep dry" "" "" "2025-01-02 00:00:00"]
       2 [("B12", "B12"); ("A1", "A1")] ["Cap"; "Resistor"] ["smd"].

(** Two databases with the same rows in every table. *)
Definition same_rows (db db' : DB) : Prop :=
  parts db' = parts db /\ parts_seq db' = parts_seq db
  /\ containers db' = containers db /\ categories db' = categories db
  /\ subcategories db' = subcategories db.

(** Every lookup key of [db] is still a lookup key of [db']. *)
Definition lookups_grow (db db' : DB) : Prop :=
  incl (categories db) (categories db')
  /\ incl (map fst (containers db)) (map fst (containers db'))
  /\ incl (subcategories db) (subcategories db').

(** A text with its ASCII capitals turned into small letters. *)
Fixpoint lower_string (s : string) : string :=
  match s with
  | EmptyString => EmptyString
  | String c s' => String (Sql.lower c) (lower_string s')
  end.

(** * Properties *)

(** ** Strings *)

Lemma lstrip_idem s : Py.lstrip (Py.lstrip s) = Py.lstrip s.
Proof.
  induction s as [|c s IH]; simpl; [reflexivity|].
  destruct (Py.is_space c) eqn:E; [exact IH|].
  simpl. now rewrite E.
Qed.

Lemma rstrip_cons c s :
  Py.rstrip (String c s) =
  match Py.rstrip s with
  | EmptyString => if Py.is_space c then EmptyString else String c EmptyString
  | r => String c r
  end.
Proof. reflexivity. Qed.

Lemma rstrip_idem s : Py.rstrip (Py.rstrip s) = Py.rstrip s.
Proof.
  induction s as [|c s IH]; [reflexivity|].
  rewrite rstrip_cons.
  destruct (Py.rstrip s) as [|d r] eqn:E.
  - destruct (Py.is_space c) eqn:Ec; [reflexivity|].
    rewrite rstrip_cons. simpl. now rewrite Ec.
  - rewrite rstrip_cons, IH. reflexivity.
Qed.

Lemma rstrip_fixed_lstrip s : Py.rstrip s = s -> Py.rstrip (Py.lstrip s) = Py.lstrip s.
Proof.
  induction s as [|c s IH]; [reflexivity|].
  intros H. simpl Py.lstrip. destruct (Py.is_space c) eqn:Ec; [|exact H].
  apply IH. rewrite rstrip_cons in H.
  destruct (Py.rstrip s) as [|d r] eqn:E.
  - rewrite Ec in H. discriminate.
  - now injection H.
Qed.

Lemma strip_idem s : Py.strip (Py.strip s) = Py.strip s.
Proof.
  unfold Py.strip.
  rewrite (rstrip_fixed_lstrip (Py.rstrip s) (rstrip_idem s)).
  apply lstrip_idem.
Qed.

Lemma truthy_false s : Py.truthy s = false <-> s = "".
Proof. destruct s; simpl; split; congruence. Qed.

Lemma strip_empty : Py.strip "" = "".
Proof. reflexivity. Qed.

(** ** Decimal text of an integer *)

Lemma in_int64_spec n :
  Sql.in_int64 n = true <-> Sql.int64_min <= n <= Sql.int64_max.
Proof.
  unfold Sql.in_int64. rewrite andb_true_iff, !Z.leb_le. tauto.
Qed.

Lemma integer_affinity_str n :
  Sql.integer_affinity (Py.str n)
  = if Sql.in_int64 n then Sql.CInt n else Sql.CReal n.
Proof.
  unfold Sql.integer_affinity, Py.str.
  rewrite NilZero.isi.
  - now rewrite DecimalZ.of_to.
  - destruct n; simpl; try discriminate.
    intros [= H]. now apply DecimalPos.Unsigned.to_uint_nonnil in H.
  - destruct n; simpl; try discriminate.
    intros [= H]. now apply DecimalPos.Unsigned.to_uint_nonnil in H.
Qed.

(** ** Statements on a database with the schema of the spec *)

Lemma bind_ok {A B} (m : M A) (k : A -> M B) db a db' :
  m db = (Ok a, db') -> bind m k db = k a db'.
Proof. unfold bind. now intros ->. Qed.

Lemma bind_raise {A B} (m : M A) (k : A -> M B) db e db' :
  m db = (Raise e, db') -> bind m k db = (Raise e, db').
Proof. unfold bind. now intros ->. Qed.

Lemma with_conn_ok {A} (m : M A) db a db' :
  m db = (Ok a, db') -> with_conn m db = (Ok a, db').
Proof. unfold with_conn. now intros ->. Qed.

Lemma require_ok db t cols have :
  has_spec_schema db ->
  assoc t spec_tables = Some have ->
  first_missing cols have = None ->
  require t cols db = (Ok tt, db).
Proof.
  unfold has_spec_schema, require. intros -> -> ->. reflexivity.
Qed.

Lemma mem_In x l : mem x l = true <-> In x l.
Proof.
  unfold mem. rewrite existsb_exists. split.
  - intros [y [Hy E]]. apply String.eqb_eq in E. now subst.
  - intros H. exists x. split; [assumption|apply String.eqb_refl].
Qed.

Lemma mem_not_In x l : mem x l = false <-> ~ In x l.
Proof.
  rewrite <- mem_In. destruct (mem x l); split; congruence.
Qed.

Lemma add_category_schema n db :
  has_spec_schema db -> has_spec_schema (add_category n db).
Proof. unfold add_category. now destruct (_ && _). Qed.

Lemma add_container_schema n db :
  has_spec_schema db -> has_spec_schema (add_container n db).
Proof. unfold add_container. now destruct (_ && _). Qed.

Lemma add_subcategory_schema n db :
  has_spec_schema db -> has_spec_schema (add_subcategory n db).
Proof. unfold add_subcategory. now destruct (_ && _). Qed.

Lemma add_category_parts n db : parts (add_category n db) = parts db.
Proof. unfold add_category. now destruct (_ && _). Qed.

Lemma add_container_parts n db : parts (add_container n db) = parts db.
Proof. unfold add_container. now destruct (_ && _). Qed.

Lemma add_subcategory_parts n db : parts (add_subcategory n db) = parts db.
Proof. unfold add_subcategory. now destruct (_ && _). Qed.

Lemma ensure_category_run name db :
  has_spec_schema db ->
  ensure_category name db = (Ok tt, add_category (Py.strip name) db).
Proof.
  intros Hs. unfold ensure_category, add_category.
  destruct (Py.truthy (Py.strip name)); simpl; [|reflexivity].
  apply with_conn_ok.
  rewrite (bind_ok _ _ db tt db) by (eapply require_ok; eauto; reflexivity).
  unfold insert_or_ignore_category.
  now destruct (mem (Py.strip name) (categories db)).
Qed.

Lemma ensure_container_run code db :
  has_spec_schema db ->
  ensure_container code db = (Ok tt, add_container (Py.strip code) db).
Proof.
  intros Hs. unfold ensure_container, add_container.
  destruct (Py.truthy (Py.strip code)); simpl; [|reflexivity].
  apply with_conn_ok.
  rewrite (bind_ok _ _ db tt db) by (eapply require_ok; eauto; reflexivity).
  unfold insert_or_ignore_container.
  now destruct (mem (Py.strip code) (map fst (containers db))).
Qed.

Lemma ensure_subcategory_run name db :
  has_spec_schema db ->
  ensure_subcategory name db = (Ok tt, add_subcategory (Py.strip name) db).
Proof.
  intros Hs. unfold ensure_subcategory, add_subcategory.
  destruct (Py.truthy (Py.strip name)); simpl; [|reflexivity].
  apply with_conn_ok.
  rewrite (bind_ok _ _ db tt db) by (eapply require_ok; eauto; reflexivity).
  unfold insert_or_ignore_subcategory.
  now destruct (mem (Py.strip name) (subcategories db)).
Qed.

Lemma fetch_parts_run q c k limit db :
  has_spec_schema db ->
  fetch_parts q c k limit db =
  (Ok (sql_limit limit
         (order_by newer_first (filter (selected (where_clause q c k)) (parts db)))),
   db).
Proof.
  intros Hs. unfold fetch_parts. apply with_conn_ok.
  rewrite (bind_ok _ _ db tt db); [reflexivity|].
  eapply require_ok; eauto; [reflexivity|].
  unfold where_clause, q_clause, category_clause, container_clause.
  destruct (Py.truthy (Py.strip q)), (Py.truthy (Py.strip c)),
    (Py.truthy (Py.strip k)); reflexivity.
Qed.

Lemma listing_run db :
  has_spec_schema db -> fetch_parts "" "" "" 500 db = (Ok (listing db), db).
Proof. intros Hs. now rewrite fetch_parts_run. Qed.

Lemma with_parts_schema db ps seq :
  has_spec_schema db -> has_spec_schema (with_parts db ps seq).
Proof. exact (fun H => H). Qed.

Lemma bind_int_ok n db :
  Sql.in_int64 n = true -> bind_int n db = (Ok tt, db).
Proof. unfold bind_int. now intros ->. Qed.

Lemma bind_int_overflow n db :
  Sql.in_int64 n = false -> bind_int n db = (Raise OverflowError, db).
Proof. unfold bind_int. now intros ->. Qed.

Lemma with_conn_raise {A} (m : M A) db e db' :
  m db = (Raise e, db') -> with_conn m db = (Raise e, db).
Proof. unfold with_conn. now intros ->. Qed.

Lemma adds_keep_parts a b c db :
  parts (add_subcategory a (add_container b (add_category c db))) = parts db
  /\ parts_seq (add_subcategory a (add_container b (add_category c db)))
     = parts_seq db.
Proof.
  unfold add_subcategory, add_container, add_category.
  repeat match goal with
         | |- context [if ?b then _ else _] => destruct b
         end; split; reflexivity.
Qed.

Lemma next_id_adds a b c db :
  next_id (add_subcategory a (add_container b (add_category c db))) = next_id db.
Proof.
  unfold next_id. destruct (adds_keep_parts a b c db) as [-> ->]. reflexivity.
Qed.

Lemma adds_schema a b c db :
  has_spec_schema db ->
  has_spec_schema (add_subcategory a (add_container b (add_category c db))).
Proof.
  intros Hs. now apply add_subcategory_schema, add_container_schema,
    add_category_schema.
Qed.

Lemma add_part_ensures cat sub cont db {A} (k : M A) :
  has_spec_schema db ->
  bind (ensure_category (Py.strip cat))
       (fun _ => bind (ensure_container cont)
                      (fun _ => bind (ensure_subcategory sub) (fun _ => k))) db
  = k (add_subcategory (Py.strip sub)
         (add_container (Py.strip cont) (add_category (Py.strip cat) db))).
Proof.
  intros Hs.
  erewrite bind_ok by (rewrite ensure_category_run, strip_idem by assumption;
                       reflexivity).
  erewrite bind_ok
    by (apply ensure_container_run; now apply add_category_schema).
  erewrite bind_ok
    by (apply ensure_subcategory_run;
        now apply add_container_schema, add_category_schema).
  reflexivity.
Qed.

(** The database [add_part] leaves on the schema of the spec, when the
    quantity fits and an id is left. *)
Lemma add_part_run cat sub desc pkg cont q notes ds pin now db :
  has_spec_schema db ->
  Sql.in_int64 (Z.max q 0) = true ->
  next_id db <= Sql.int64_max ->
  let db3 := add_subcategory (Py.strip sub)
               (add_container (Py.strip cont) (add_category (Py.strip cat) db)) in
  let db4 := with_parts db3
               (parts db3 ++ [new_part cat sub desc pkg cont q notes ds pin now
                                       (next_id db3)])%list
               (next_id db3) in
  add_part cat sub desc pkg cont q notes ds pin now db =
  (Ok (Render "_table.html" (TablePage (listing db4))), db4).
Proof.
  intros Hs Hq Hid db3 db4. unfold add_part.
  assert (H3 : has_spec_schema db3) by now apply adds_schema.
  rewrite add_part_ensures by exact Hs. fold db3.
  erewrite (bind_ok _ _ db3 tt db4).
  - erewrite bind_ok by (apply listing_run; exact H3). reflexivity.
  - apply with_conn_ok. unfold insert_part.
    erewrite bind_ok by (eapply require_ok; eauto; reflexivity).
    erewrite bind_ok by (now apply bind_int_ok).
    unfold db3 at 1. rewrite next_id_adds.
    destruct (Z.ltb_spec Sql.int64_max (next_id db)) as [H|_]; [lia|].
    reflexivity.
Qed.

(** A quantity above the 64-bit range: the ensured lookup rows stay, no
    part is stored. *)
Lemma add_part_overflow cat sub desc pkg cont q notes ds pin now db :
  has_spec_schema db ->
  Sql.in_int64 (Z.max q 0) = false ->
  add_part cat sub desc pkg cont q notes ds pin now db =
  (Raise OverflowError,
   add_subcategory (Py.strip sub)
     (add_container (Py.strip cont) (add_category (Py.strip cat) db))).
Proof.
  intros Hs Hq. unfold add_part.
  rewrite add_part_ensures by exact Hs.
  eapply bind_raise, with_conn_raise. unfold insert_part.
  erewrite bind_ok
    by (eapply require_ok; [now apply adds_schema|reflexivity..]).
  eapply bind_raise. now apply bind_int_overflow.
Qed.

(** No id is left. *)
Lemma add_part_full cat sub desc pkg cont q notes ds pin now db :
  has_spec_schema db ->
  Sql.in_int64 (Z.max q 0) = true ->
  Sql.int64_max < next_id db ->
  add_part cat sub desc pkg cont q notes ds pin now db =
  (Raise DatabaseFull,
   add_subcategory (Py.strip sub)
     (add_container (Py.strip cont) (add_category (Py.strip cat) db))).
Proof.
  intros Hs Hq Hid. unfold add_part.
  rewrite add_part_ensures by exact Hs.
  eapply bind_raise, with_conn_raise. unfold insert_part.
  erewrite bind_ok
    by (eapply require_ok; [now apply adds_schema|reflexivity..]).
  erewrite bind_ok by (now apply bind_int_ok).
  rewrite next_id_adds.
  destruct (Z.ltb_spec Sql.int64_max (next_id db)) as [_|H]; [|lia].
  reflexivity.
Qed.

(** Either way. *)
Lemma add_part_db cat sub desc pkg cont q notes ds pin now db :
  has_spec_schema db ->
  let db3 := add_subcategory (Py.strip sub)
               (add_container (Py.strip cont) (add_category (Py.strip cat) db)) in
  snd (add_part cat sub desc pkg cont q notes ds pin now db) = db3
  \/ snd (add_part cat sub desc pkg cont q notes ds pin now db)
     = with_parts db3
         (parts db3 ++ [new_part cat sub desc pkg cont q notes ds pin now
                                 (next_id db3)])%list
         (next_id db3).
Proof.
  intros Hs db3.
  destruct (Sql.in_int64 (Z.max q 0)) eqn:Hq.
  - destruct (Z.ltb_spec Sql.int64_max (next_id db)) as [H|H].
    + left. now rewrite add_part_full.
    + right. now rewrite add_part_run.
  - left. now rewrite add_part_overflow.
Qed.

Lemma select_part_run part_id db :
  has_spec_schema db ->
  Sql.in_int64 part_id = true ->
  select_part part_id db = (Ok (find (fun p => id p =? part_id) (parts db)), db).
Proof.
  intros Hs Hi. unfold select_part.
  erewrite bind_ok by (eapply require_ok; eauto; reflexivity).
  erewrite bind_ok by (now apply bind_int_ok). reflexivity.
Qed.

Lemma select_part_overflow part_id db :
  has_spec_schema db ->
  Sql.in_int64 part_id = false ->
  select_part part_id db = (Raise OverflowError, db).
Proof.
  intros Hs Hi. unfold select_part.
  erewrite bind_ok by (eapply require_ok; eauto; reflexivity).
  eapply bind_raise. now apply bind_int_overflow.
Qed.

Lemma find_absent part_id (ps : list Part) :
  (forall p, In p ps -> id p <> part_id) ->
  find (fun p => id p =? part_id) ps = None.
Proof.
  intros H. destruct (find _ ps) as [p|] eqn:E; [|reflexivity].
  apply find_some in E. destruct E as [Hin Heq].
  apply Z.eqb_eq in Heq. now apply H in Hin.
Qed.

Lemma filter_absent part_id (ps : list Part) :
  (forall p, In p ps -> id p <> part_id) ->
  filter (fun p => negb (id p =? part_id)) ps = ps.
Proof.
  induction ps as [|p ps IH]; intros H; simpl; [reflexivity|].
  destruct (Z.eqb_spec (id p) part_id) as [E|_]; simpl.
  - exfalso. apply (H p); [now left|exact E].
  - f_equal. apply IH. intros p' Hp'. apply H. now right.
Qed.

Lemma map_absent part_id (f : Part -> Part) (ps : list Part) :
  (forall p, In p ps -> id p <> part_id) ->
  map (fun p => if id p =? part_id then f p else p) ps = ps.
Proof.
  induction ps as [|p ps IH]; intros H; simpl; [reflexivity|].
  destruct (Z.eqb_spec (id p) part_id) as [E|_].
  - exfalso. apply (H p); [now left|exact E].
  - f_equal. apply IH. intros p' Hp'. apply H. now right.
Qed.

Lemma with_parts_same db : with_parts db (parts db) (parts_seq db) = db.
Proof. now destruct db. Qed.

Lemma delete_part_run part_id db :
  has_spec_schema db ->
  Sql.in_int64 part_id = true ->
  let db' := with_parts db (filter (fun p => negb (id p =? part_id)) (parts db))
                        (parts_seq db) in
  delete_part part_id db = (Ok (Render "_table.html" (TablePage (listing db'))), db').
Proof.
  intros Hs Hi db'. unfold delete_part.
  erewrite (bind_ok _ _ db tt db').
  - erewrite bind_ok by (apply listing_run; exact Hs). reflexivity.
  - apply with_conn_ok.
    erewrite bind_ok by (eapply require_ok; eauto; reflexivity).
    erewrite bind_ok by (now apply bind_int_ok). reflexivity.
Qed.

Lemma delete_part_overflow part_id db :
  has_spec_schema db ->
  Sql.in_int64 part_id = false ->
  delete_part part_id db = (Raise OverflowError, db).
Proof.
  intros Hs Hi. unfold delete_part.
  eapply bind_raise, with_conn_raise.
  erewrite bind_ok by (eapply require_ok; eauto; reflexivity).
  eapply bind_raise. now apply bind_int_overflow.
Qed.

Lemma allowed_is_column field :
  In field ALLOWED_EDIT_FIELDS ->
  first_missing [field; "updated_at"; "id"]
    (parts_columns_init ++ ["datasheet_url"; "pinout_url"]) = None.
Proof.
  intros Hf. simpl in Hf.
  repeat (destruct Hf as [<-|Hf]; [reflexivity|]). contradiction.
Qed.

(** The update and the read-back of [save_cell], for an allowed field. *)
Lemma update_select_run field value now part_id db :
  has_spec_schema db ->
  In field ALLOWED_EDIT_FIELDS ->
  Sql.in_int64 part_id = true ->
  let ps := map (fun p => if id p =? part_id
                          then set_field field value now p else p) (parts db) in
  with_conn (update_part field value now part_id ;;; select_part part_id) db =
  (Ok (find (fun p => id p =? part_id) ps), with_parts db ps (parts_seq db)).
Proof.
  intros Hs Hf Hi ps. apply with_conn_ok.
  erewrite (bind_ok _ _ db tt (with_parts db ps (parts_seq db))).
  - now rewrite select_part_run.
  - unfold update_part.
    erewrite bind_ok
      by (eapply require_ok; eauto; [reflexivity|now apply allowed_is_column]).
    erewrite bind_ok by (now apply bind_int_ok). reflexivity.
Qed.

Lemma update_select_overflow field value now part_id db :
  has_spec_schema db ->
  In field ALLOWED_EDIT_FIELDS ->
  Sql.in_int64 part_id = false ->
  with_conn (update_part field value now part_id ;;; select_part part_id) db =
  (Raise OverflowError, db).
Proof.
  intros Hs Hf Hi. eapply with_conn_raise, bind_raise.
  unfold update_part.
  erewrite bind_ok
    by (eapply require_ok; eauto; [reflexivity|now apply allowed_is_column]).
  eapply bind_raise. now apply bind_int_overflow.
Qed.

Lemma after_ensure_schema field v db :
  has_spec_schema db -> has_spec_schema (after_ensure field v db).
Proof.
  intros Hs. unfold after_ensure.
  repeat match goal with |- context [if ?b then _ else _] => destruct b end;
    auto using add_container_schema, add_category_schema, add_subcategory_schema.
Qed.

(** What [save_cell] does before its UPDATE, for an allowed field: it
    ensures the lookup row and goes on with the value to bind. *)
Lemma save_cell_prefix part_id field value now db :
  has_spec_schema db ->
  In field ALLOWED_EDIT_FIELDS ->
  save_cell part_id field value now db =
  bind (with_conn (update_part field (bound_value field value) now part_id ;;;
                   select_part part_id))
       (fun row => match row with
                   | None => ret (HTMLResponse "Not found" 404)
                   | Some r => ret (Render "_row.html" (RowPage r))
                   end)
       (after_ensure field (Py.strip value) db).
Proof.
  intros Hs Hf. unfold save_cell.
  replace (mem field ALLOWED_EDIT_FIELDS) with true
    by (symmetry; now apply mem_In).
  cbv beta iota zeta delta [negb].
  simpl in Hf.
  destruct Hf as [<-|[<-|[<-|[<-|[<-|[<-|[<-|[<-|[<-|[]]]]]]]]]];
    cbn [String.eqb Ascii.eqb Bool.eqb mem existsb orb];
    unfold after_ensure, bound_value;
    cbn [String.eqb Ascii.eqb Bool.eqb];
    try (erewrite bind_ok;
         [|erewrite bind_ok;
           [reflexivity
           |first [apply ensure_category_run | apply ensure_container_run
                  | apply ensure_subcategory_run]; exact Hs]];
         rewrite strip_idem);
    try (erewrite bind_ok by reflexivity);
    rewrite ?strip_idem; reflexivity.
Qed.

Lemma save_cell_run part_id field value now db :
  has_spec_schema db ->
  In field ALLOWED_EDIT_FIELDS ->
  Sql.in_int64 part_id = true ->
  let db1 := after_ensure field (Py.strip value) db in
  let ps := map (fun p => if id p =? part_id
                          then set_field field (bound_value field value) now p
                          else p) (parts db1) in
  save_cell part_id field value now db =
  (Ok match find (fun p => id p =? part_id) ps with
      | None => HTMLResponse "Not found" 404
      | Some r => Render "_row.html" (RowPage r)
      end,
   with_parts db1 ps (parts_seq db1)).
Proof.
  intros Hs Hf Hi db1 ps.
  rewrite save_cell_prefix by assumption.
  erewrite bind_ok
    by (apply update_select_run;
        [now apply after_ensure_schema|assumption..]).
  fold db1 ps. now destruct (find _ ps).
Qed.

Lemma save_cell_overflow part_id field value now db :
  has_spec_schema db ->
  In field ALLOWED_EDIT_FIELDS ->
  Sql.in_int64 part_id = false ->
  save_cell part_id field value now db =
  (Raise OverflowError, after_ensure field (Py.strip value) db).
Proof.
  intros Hs Hf Hi.
  rewrite save_cell_prefix by assumption.
  eapply bind_raise.
  apply update_select_overflow; [now apply after_ensure_schema|assumption..].
Qed.

(** ** Schema after initialisation *)

(** C1.  The claim: after [init_db] the schema has the four tables and
    [parts] has the columns [datasheet_url] and [pinout_url], so that part
    creation can insert into them.  The code: on a new file [init_db]
    declares [parts] alone, with nine columns and neither URL column; the
    first creation then raises on the missing [categories] table, and on a
    file that already has the lookup tables it raises on the missing
    [datasheet_url] column. *)
Theorem init_db_declares_parts_only :
  init_db empty_db = (Ok tt, fresh_db)
  /\ db_tables fresh_db = [("parts", parts_columns_init)]
  /\ mem "datasheet_url" parts_columns_init = false
  /\ mem "pinout_url" parts_columns_init = false
  /\ assoc "containers" (db_tables fresh_db) = None
  /\ assoc "categories" (db_tables fresh_db) = None
  /\ assoc "subcategories" (db_tables fresh_db) = None
  /\ (forall now,
        add_part "Resistor" "" "10k 1%" "" "" 0 "" "" "" now fresh_db
        = (Raise (NoSuchTable "categories"), fresh_db))
  /\ (forall now,
        fst (add_part "Resistor" "" "10k 1%" "" "" 0 "" "" "" now
                      (snd (init_db lookups_only_db)))
        = Raise (NoSuchColumn "parts" "datasheet_url")).
Proof.
  repeat split; intros; reflexivity.
Qed.

(** ** Quantity *)

Lemma normalize_quantity_strip value :
  normalize_quantity (Py.strip value) = Py.str (edited_quantity value).
Proof.
  unfold normalize_quantity, edited_quantity.
  destruct (String.eqb_spec (Py.strip value) "") as [E|_]; [|reflexivity].
  unfold Py.int. rewrite strip_idem, E. reflexivity.
Qed.

Lemma set_field_quantity n now p :
  id (set_field "quantity" (Py.str n) now p) = id p
  /\ quantity (set_field "quantity" (Py.str n) now p)
     = (if Sql.in_int64 n then Sql.CInt n else Sql.CReal n).
Proof.
  unfold set_field. cbn [String.eqb Ascii.eqb Bool.eqb id quantity].
  split; [reflexivity|apply integer_affinity_str].
Qed.

Lemma in_int64_nonneg n :
  0 <= n -> Sql.in_int64 n = (n <=? Sql.int64_max).
Proof.
  intros H. unfold Sql.in_int64.
  replace (Sql.int64_min <=? n) with true; [reflexivity|].
  symmetry. apply Z.leb_le. assert (Sql.int64_min <= 0) by now vm_compute. lia.
Qed.

(** C2, as the code has it.  Every quantity that is written is not
    negative, and it is an integer as long as it fits in 64 bits.  A
    creation with [q <= 2^63 - 1] stores the integer [max q 0], so 0 for a
    negative [q]; with a larger [q] the INSERT raises and no part is
    stored.  An edit of the quantity cell with the text [value] writes
    [max k 0], where [k] is what [int] reads in the stripped text and 0
    when [int] raises, which includes the empty text: as an integer when
    it is at most [2^63 - 1], as the REAL nearest to it when it is
    larger. *)
Theorem stored_quantity_nonnegative :
  forall db, has_spec_schema db ->
  (forall cat sub desc pkg cont q notes ds pin now,
     q <= Sql.int64_max ->
     next_id db <= Sql.int64_max ->
     exists page db' p,
       add_part cat sub desc pkg cont q notes ds pin now db = (Ok page, db')
       /\ parts db' = (parts db ++ [p])%list
       /\ quantity p = Sql.CInt (Z.max q 0)
       /\ 0 <= Z.max q 0
       /\ (q < 0 -> Z.max q 0 = 0))
  /\
  (forall cat sub desc pkg cont q notes ds pin now,
     Sql.int64_max < q ->
     exists db',
       add_part cat sub desc pkg cont q notes ds pin now db
       = (Raise OverflowError, db')
       /\ parts db' = parts db)
  /\
  (forall part_id value now,
     Sql.in_int64 part_id = true ->
     exists page db',
       save_cell part_id "quantity" value now db = (Ok page, db')
       /\ Forall2 (fun p p' =>
                     id p' = id p
                     /\ if id p =? part_id
                        then (edited_quantity value <= Sql.int64_max ->
                              quantity p' = Sql.CInt (edited_quantity value))
                             /\ (Sql.int64_max < edited_quantity value ->
                                 quantity p' = Sql.CReal (edited_quantity value))
                        else p' = p)
                  (parts db) (parts db')
       /\ 0 <= edited_quantity value
       /\ (Py.int (Py.strip value) = None -> edited_quantity value = 0)
       /\ (forall k, Py.int (Py.strip value) = Some k ->
                     edited_quantity value = Z.max k 0)).
Proof.
  intros db Hs. split; [|split].
  - intros cat sub desc pkg cont q notes ds pin now Hq Hid.
    eexists _, _, _. split.
    { apply add_part_run; [exact Hs| |exact Hid].
      rewrite in_int64_nonneg by lia. apply Z.leb_le.
      assert (0 <= Sql.int64_max) by now vm_compute. lia. }
    cbn [parts with_parts].
    rewrite add_subcategory_parts, add_container_parts, add_category_parts.
    split; [reflexivity|]. cbn [quantity new_part]. repeat split; lia.
  - intros cat sub desc pkg cont q notes ds pin now Hq.
    eexists. split.
    { apply add_part_overflow; [exact Hs|].
      rewrite in_int64_nonneg by lia. apply Z.leb_gt. lia. }
    now rewrite add_subcategory_parts, add_container_parts, add_category_parts.
  - intros part_id value now Hi. eexists _, _. split.
    { apply save_cell_run; [exact Hs|simpl; tauto|exact Hi]. }
    assert (H0 : 0 <= edited_quantity value) by (unfold edited_quantity; lia).
    split; [|unfold edited_quantity; repeat split; try lia].
    + cbn [parts with_parts after_ensure String.eqb Ascii.eqb Bool.eqb].
      unfold bound_value. cbn [String.eqb Ascii.eqb Bool.eqb].
      rewrite normalize_quantity_strip.
      induction (parts db) as [|p ps IH]; simpl; constructor; [|exact IH].
      destruct (id p =? part_id); [|now split].
      destruct (set_field_quantity (edited_quantity value) now p) as [E1 E2].
      split; [exact E1|]. rewrite E2, in_int64_nonneg by exact H0.
      split; intros H.
      * now rewrite (proj2 (Z.leb_le _ _) H).
      * now rewrite (proj2 (Z.leb_gt _ _) H).
    + now intros ->.
    + now intros k ->.
Qed.

Lemma stored_quantity_nonnegative_witness :
  has_spec_schema sample_db
  /\ -5 <= Sql.int64_max
  /\ next_id sample_db <= Sql.int64_max
  /\ (exists page db' p,
        add_part "Resistor" "" "10k 1%" "" "" (-5) "" "" "" "2025-01-03 00:00:00"
                 sample_db = (Ok page, db')
        /\ parts db' = (parts sample_db ++ [p])%list
        /\ quantity p = Sql.CInt (Z.max (-5) 0)
        /\ 0 <= Z.max (-5) 0
        /\ (-5 < 0 -> Z.max (-5) 0 = 0)).
Proof.
  assert (H1 : -5 <= Sql.int64_max) by now vm_compute.
  assert (H2 : next_id sample_db <= Sql.int64_max) by now vm_compute.
  split; [reflexivity|]. split; [exact H1|]. split; [exact H2|].
  exact (proj1 (stored_quantity_nonnegative sample_db eq_refl)
               "Resistor" "" "10k 1%" "" "" (-5) "" "" "" "2025-01-03 00:00:00"
               H1 H2).
Defined.

(** C2, as the claim has it, fails: the quantity edit
    [9223372036854775808], one above the largest 64-bit integer, is not
    stored as an integer but as a REAL. *)
Lemma quantity_edit_beyond_int64_is_real :
  exists p,
    parts (snd (save_cell 1 "quantity" "9223372036854775808"
                          "2025-01-03 00:00:00" sample_db)) = [p]
    /\ id p = 1
    /\ quantity p = Sql.CReal 9223372036854775808
    /\ forall n, quantity p <> Sql.CInt n.
Proof.
  eexists. split; [vm_compute; reflexivity|].
  cbn [id quantity]. repeat split. discriminate.
Qed.

(** ** Rejected edits *)

(** C3.  An edit request, GET or POST, whose field is not in the
    allow-list is answered 400 "Invalid field" and leaves the whole
    database as it was. *)
Theorem invalid_field_rejected :
  forall db part_id field value now,
    ~ In field ALLOWED_EDIT_FIELDS ->
    edit_cell part_id field db = (Ok (HTMLResponse "Invalid field" 400), db)
    /\ save_cell part_id field value now db
       = (Ok (HTMLResponse "Invalid field" 400), db).
Proof.
  intros db part_id field value now H.
  apply mem_not_In in H.
  unfold edit_cell, save_cell. rewrite H. split; reflexivity.
Qed.

Lemma invalid_field_rejected_witness :
  ~ In "id" ALLOWED_EDIT_FIELDS
  /\ edit_cell 1 "id" sample_db = (Ok (HTMLResponse "Invalid field" 400), sample_db)
  /\ save_cell 1 "id" "7" "2025-01-03 00:00:00" sample_db
     = (Ok (HTMLResponse "Invalid field" 400), sample_db).
Proof.
  assert (H : ~ In "id" ALLOWED_EDIT_FIELDS).
  { apply mem_not_In. reflexivity. }
  split; [exact H|].
  exact (invalid_field_rejected sample_db 1 "id" "7" "2025-01-03 00:00:00" H).
Defined.

(** ** Requests on a part that is not stored *)

Lemma after_ensure_parts field v db : parts (after_ensure field v db) = parts db.
Proof.
  unfold after_ensure.
  repeat match goal with |- context [if ?b then _ else _] => destruct b end;
    auto using add_container_parts, add_category_parts, add_subcategory_parts.
Qed.

Lemma save_cell_absent part_id field value now db :
  has_spec_schema db ->
  In field ALLOWED_EDIT_FIELDS ->
  Sql.in_int64 part_id = true ->
  (forall p, In p (parts db) -> id p <> part_id) ->
  save_cell part_id field value now db =
  (Ok (HTMLResponse "Not found" 404), after_ensure field (Py.strip value) db).
Proof.
  intros Hs Hf Hi Habs.
  rewrite save_cell_run by assumption.
  rewrite map_absent by (now rewrite after_ensure_parts).
  rewrite find_absent by (now rewrite after_ensure_parts).
  now rewrite with_parts_same.
Qed.

Lemma delete_part_twice part_id db :
  has_spec_schema db ->
  snd (delete_part part_id (snd (delete_part part_id db)))
  = snd (delete_part part_id db).
Proof.
  intros Hs. destruct (Sql.in_int64 part_id) eqn:Hi.
  - rewrite (delete_part_run part_id db Hs Hi).
    cbn [snd]. rewrite delete_part_run by (exact Hs || exact Hi).
    cbn [snd parts with_parts parts_seq]. unfold with_parts at 1.
    cbn [db_tables db_indexes parts parts_seq containers categories subcategories
         with_parts].
    unfold with_parts. f_equal.
    apply filter_absent. intros p Hp E.
    apply filter_In in Hp. destruct Hp as [_ Hp].
    apply Z.eqb_eq in E. now rewrite E in Hp.
  - rewrite (delete_part_overflow part_id db Hs Hi). cbn [snd].
    now rewrite delete_part_overflow.
Qed.

Lemma edit_cell_absent part_id field db :
  has_spec_schema db ->
  In field ALLOWED_EDIT_FIELDS ->
  Sql.in_int64 part_id = true ->
  (forall p, In p (parts db) -> id p <> part_id) ->
  edit_cell part_id field db = (Ok (HTMLResponse "Not found" 404), db).
Proof.
  intros Hs Hf Hi Habs. unfold edit_cell.
  replace (mem field ALLOWED_EDIT_FIELDS) with true
    by (symmetry; now apply mem_In).
  cbn [negb].
  erewrite bind_ok
    by (apply with_conn_ok; rewrite select_part_run by assumption;
        now rewrite find_absent).
  reflexivity.
Qed.

Lemma edit_cell_overflow part_id field db :
  has_spec_schema db ->
  In field ALLOWED_EDIT_FIELDS ->
  Sql.in_int64 part_id = false ->
  edit_cell part_id field db = (Raise OverflowError, db).
Proof.
  intros Hs Hf Hi. unfold edit_cell.
  replace (mem field ALLOWED_EDIT_FIELDS) with true
    by (symmetry; now apply mem_In).
  cbn [negb].
  eapply bind_raise, with_conn_raise. now apply select_part_overflow.
Qed.

(** C4, as the code has it.  For a part id that is not stored and lies in
    the signed 64-bit range: an edit request with an allow-listed field is
    answered 404 "Not found", by GET and by POST, and the rows of [parts]
    stay as they were; a delete request returns the refreshed listing and
    leaves the database as it was.  For an id outside that range the
    SELECT, the UPDATE and the DELETE raise [OverflowError] when the id is
    bound; the rows of [parts] stay as they were. *)
Theorem absent_part_not_found_or_noop :
  forall db part_id,
    has_spec_schema db ->
    (forall p, In p (parts db) -> id p <> part_id) ->
    (Sql.in_int64 part_id = true ->
     (forall field, In field ALLOWED_EDIT_FIELDS ->
        edit_cell part_id field db = (Ok (HTMLResponse "Not found" 404), db))
     /\ (forall field value now, In field ALLOWED_EDIT_FIELDS ->
           exists db',
             save_cell part_id field value now db
             = (Ok (HTMLResponse "Not found" 404), db')
             /\ parts db' = parts db)
     /\ delete_part part_id db
        = (Ok (Render "_table.html" (TablePage (listing db))), db))
    /\ (Sql.in_int64 part_id = false ->
        (forall field, In field ALLOWED_EDIT_FIELDS ->
           edit_cell part_id field db = (Raise OverflowError, db))
        /\ (forall field value now, In field ALLOWED_EDIT_FIELDS ->
              exists db',
                save_cell part_id field value now db = (Raise OverflowError, db')
                /\ parts db' = parts db)
        /\ delete_part part_id db = (Raise OverflowError, db)).
Proof.
  intros db part_id Hs Habs. split; intros Hi; repeat split.
  - intros field Hf. now apply edit_cell_absent.
  - intros field value now Hf. eexists. split.
    + now apply save_cell_absent.
    + apply after_ensure_parts.
  - rewrite delete_part_run by assumption.
    rewrite filter_absent by assumption.
    now rewrite with_parts_same.
  - intros field Hf. now apply edit_cell_overflow.
  - intros field value now Hf. eexists. split.
    + now apply save_cell_overflow.
    + apply after_ensure_parts.
  - now apply delete_part_overflow.
Qed.

Lemma absent_part_not_found_or_noop_witness :
  has_spec_schema sample_db
  /\ (forall p, In p (parts sample_db) -> id p <> 999)
  /\ Sql.in_int64 999 = true
  /\ edit_cell 999 "category" sample_db
     = (Ok (HTMLResponse "Not found" 404), sample_db)
  /\ delete_part 999 sample_db
     = (Ok (Render "_table.html" (TablePage (listing sample_db))), sample_db).
Proof.
  assert (H : forall p, In p (parts sample_db) -> id p <> 999).
  { intros p [<-|[]]. discriminate. }
  split; [reflexivity|]. split; [exact H|]. split; [reflexivity|].
  destruct (proj1 (absent_part_not_found_or_noop sample_db 999 eq_refl H) eq_refl)
    as [He [_ Hd]].
  split; [|exact Hd].
  apply He. simpl. tauto.
Defined.

(** C4, as the claim has it, fails: no part has the id
    [9223372036854775808], and the edit request and the delete request on
    it raise instead of answering 404 and succeeding. *)
Lemma absent_id_beyond_int64_raises :
  (forall p, In p (parts sample_db) -> id p <> 9223372036854775808)
  /\ In "category" ALLOWED_EDIT_FIELDS
  /\ edit_cell 9223372036854775808 "category" sample_db
     = (Raise OverflowError, sample_db)
  /\ fst (save_cell 9223372036854775808 "category" "Cap" "2025-01-03 00:00:00"
                    sample_db)
     = Raise OverflowError
  /\ delete_part 9223372036854775808 sample_db = (Raise OverflowError, sample_db).
Proof.
  split; [intros p [<-|[]]; discriminate|].
  split; [simpl; tauto|]. repeat split.
Qed.

(** C9, as the code has it.  An edit of a lookup-backed field on a part id
    that is not stored changes no row of [parts] and fails, yet the
    lookup row named by the stripped value is there afterwards: appended
    when the value is not blank and was not there before.  The failure is
    the answer 404 for an id in the signed 64-bit range and an
    [OverflowError] raised by the UPDATE for an id outside it. *)
Theorem absent_part_edit_keeps_lookup :
  forall db part_id value now,
    has_spec_schema db ->
    (forall p, In p (parts db) -> id p <> part_id) ->
    Py.strip value <> "" ->
    (exists db',
       save_cell part_id "category" value now db
       = (if Sql.in_int64 part_id then Ok (HTMLResponse "Not found" 404)
          else Raise OverflowError, db')
       /\ parts db' = parts db
       /\ In (Py.strip value) (categories db')
       /\ (~ In (Py.strip value) (categories db) ->
           categories db' = (categories db ++ [Py.strip value])%list))
    /\ (exists db',
          save_cell part_id "container_id" value now db
          = (if Sql.in_int64 part_id then Ok (HTMLResponse "Not found" 404)
             else Raise OverflowError, db')
          /\ parts db' = parts db
          /\ In (Py.strip value) (map fst (containers db'))
          /\ (~ In (Py.strip value) (map fst (containers db)) ->
              containers db'
              = (containers db ++ [(Py.strip value, Py.strip value)])%list))
    /\ (exists db',
          save_cell part_id "subcategory" value now db
          = (if Sql.in_int64 part_id then Ok (HTMLResponse "Not found" 404)
             else Raise OverflowError, db')
          /\ parts db' = parts db
          /\ In (Py.strip value) (subcategories db')
          /\ (~ In (Py.strip value) (subcategories db) ->
              subcategories db' = (subcategories db ++ [Py.strip value])%list)).
Proof.
  intros db part_id value now Hs Habs Hv.
  assert (Ht : Py.truthy (Py.strip value) = true).
  { destruct (Py.truthy (Py.strip value)) eqn:E; [reflexivity|].
    now apply truthy_false in E. }
  assert (Hrun : forall field, In field ALLOWED_EDIT_FIELDS ->
            save_cell part_id field value now db
            = (if Sql.in_int64 part_id then Ok (HTMLResponse "Not found" 404)
               else Raise OverflowError,
               after_ensure field (Py.strip value) db)).
  { intros field Hf. destruct (Sql.in_int64 part_id) eqn:Hi.
    - now apply save_cell_absent.
    - now apply save_cell_overflow. }
  repeat split.
  - eexists. split; [apply Hrun; simpl; tauto|].
    cbn [after_ensure String.eqb Ascii.eqb Bool.eqb].
    unfold add_category. rewrite Ht. cbn [andb].
    destruct (mem (Py.strip value) (categories db)) eqn:E; cbn [negb].
    + apply mem_In in E. repeat split; tauto.
    + cbn [parts categories with_categories]. repeat split.
      apply in_or_app. right. now left.
  - eexists. split; [apply Hrun; simpl; tauto|].
    cbn [after_ensure String.eqb Ascii.eqb Bool.eqb].
    unfold add_container. rewrite Ht. cbn [andb].
    destruct (mem (Py.strip value) (map fst (containers db))) eqn:E; cbn [negb].
    + apply mem_In in E. repeat split; tauto.
    + cbn [parts containers with_containers]. repeat split.
      rewrite map_app. apply in_or_app. right. now left.
  - eexists. split; [apply Hrun; simpl; tauto|].
    cbn [after_ensure String.eqb Ascii.eqb Bool.eqb].
    unfold add_subcategory. rewrite Ht. cbn [andb].
    destruct (mem (Py.strip value) (subcategories db)) eqn:E; cbn [negb].
    + apply mem_In in E. repeat split; tauto.
    + cbn [parts subcategories with_subcategories]. repeat split.
      apply in_or_app. right. now left.
Qed.

Lemma absent_part_edit_keeps_lookup_witness :
  has_spec_schema sample_db
  /\ (forall p, In p (parts sample_db) -> id p <> 999)
  /\ Py.strip " Diode " <> ""
  /\ (exists db',
        save_cell 999 "category" " Diode " "2025-01-03 00:00:00" sample_db
        = (Ok (HTMLResponse "Not found" 404), db')
        /\ parts db' = parts sample_db
        /\ In (Py.strip " Diode ") (categories db')
        /\ (~ In (Py.strip " Diode ") (categories sample_db) ->
            categories db'
            = (categories sample_db ++ [Py.strip " Diode "])%list)).
Proof.
  assert (H : forall p, In p (parts sample_db) -> id p <> 999).
  { intros p [<-|[]]. discriminate. }
  assert (Hv : Py.strip " Diode " <> "") by discriminate.
  split; [reflexivity|]. split; [exact H|]. split; [exact Hv|].
  exact (proj1 (absent_part_edit_keeps_lookup
                  sample_db 999 " Diode " "2025-01-03 00:00:00" eq_refl H Hv)).
Defined.

(** C9, as the claim has it, fails: on the absent id
    [9223372036854775808] the edit creates the category and then raises,
    so the response is not the 404 the claim names. *)
Lemma absent_id_beyond_int64_edit_raises :
  (forall p, In p (parts sample_db) -> id p <> 9223372036854775808)
  /\ save_cell 9223372036854775808 "category" " Diode " "2025-01-03 00:00:00"
               sample_db
     = (Raise OverflowError,
        mkDB spec_tables [] [sample_part] 1 [("B12", "B12")] ["Cap"; "Diode"] [])
  /\ fst (save_cell 9223372036854775808 "category" " Diode "
                    "2025-01-03 00:00:00" sample_db)
     <> Ok (HTMLResponse "Not found" 404).
Proof.
  split; [intros p [<-|[]]; discriminate|].
  split; [reflexivity|discriminate].
Qed.

(** ** Blank category and description *)

(** C5.  The claim: no accepted creation stores an empty category or
    description.  The code: a category and a description of one space
    each are present in the form, so the handler runs, strips both and
    stores a row whose category and description are empty. *)
Theorem add_part_stores_blank_category :
  forall now,
    add_part " " "" " " "" "" 0 "" "" "" now blank_db
    = (Ok (Render "_table.html"
             (TablePage [mkPart 1 "" "" "" "" "" (Sql.CInt 0) "" "" "" now])),
       mkDB spec_tables [] [mkPart 1 "" "" "" "" "" (Sql.CInt 0) "" "" "" now]
            1 [] [] []).
Proof. intros now. reflexivity. Qed.

(** ** Ensuring a lookup value *)

Lemma count_occ_unique (l : list string) x :
  NoDup l -> In x l -> count_occ string_dec l x = 1%nat.
Proof.
  intros Hn Hi.
  apply (proj1 (NoDup_count_occ string_dec l)) with (x := x) in Hn.
  apply (count_occ_In string_dec) in Hi. lia.
Qed.

Lemma count_occ_appended (l : list string) x :
  ~ In x l -> count_occ string_dec (l ++ [x]) x = 1%nat.
Proof.
  intros Hi. rewrite count_occ_app.
  apply (count_occ_not_In string_dec) in Hi. rewrite Hi.
  simpl. now destruct (string_dec x x).
Qed.

Lemma add_category_twice n db :
  add_category n (add_category n db) = add_category n db.
Proof.
  unfold add_category.
  destruct (Py.truthy n) eqn:Et; cbn [andb]; [|reflexivity].
  destruct (mem n (categories db)) eqn:Em; cbn [negb].
  - now rewrite Em.
  - cbn [categories with_categories].
    replace (mem n (categories db ++ [n])) with true; [reflexivity|].
    symmetry. apply mem_In, in_or_app. right. now left.
Qed.

Lemma add_container_twice n db :
  add_container n (add_container n db) = add_container n db.
Proof.
  unfold add_container.
  destruct (Py.truthy n) eqn:Et; cbn [andb]; [|reflexivity].
  destruct (mem n (map fst (containers db))) eqn:Em; cbn [negb].
  - now rewrite Em.
  - cbn [containers with_containers].
    replace (mem n (map fst (containers db ++ [(n, n)]))) with true;
      [reflexivity|].
    symmetry. apply mem_In. rewrite map_app. apply in_or_app. right. now left.
Qed.

Lemma add_subcategory_twice n db :
  add_subcategory n (add_subcategory n db) = add_subcategory n db.
Proof.
  unfold add_subcategory.
  destruct (Py.truthy n) eqn:Et; cbn [andb]; [|reflexivity].
  destruct (mem n (subcategories db)) eqn:Em; cbn [negb].
  - now rewrite Em.
  - cbn [subcategories with_subcategories].
    replace (mem n (subcategories db ++ [n])) with true; [reflexivity|].
    symmetry. apply mem_In, in_or_app. right. now left.
Qed.

Lemma add_category_count n db :
  NoDup (categories db) -> Py.truthy n = true ->
  count_occ string_dec (categories (add_category n db)) n = 1%nat.
Proof.
  intros Hn Ht. unfold add_category. rewrite Ht. cbn [andb].
  destruct (mem n (categories db)) eqn:Em; cbn [negb].
  - apply count_occ_unique; [exact Hn|now apply mem_In].
  - apply count_occ_appended. now apply mem_not_In.
Qed.

Lemma add_container_count n db :
  NoDup (map fst (containers db)) -> Py.truthy n = true ->
  count_occ string_dec (map fst (containers (add_container n db))) n = 1%nat.
Proof.
  intros Hn Ht. unfold add_container. rewrite Ht. cbn [andb].
  destruct (mem n (map fst (containers db))) eqn:Em; cbn [negb].
  - apply count_occ_unique; [exact Hn|now apply mem_In].
  - cbn [containers with_containers]. rewrite map_app.
    apply count_occ_appended. now apply mem_not_In.
Qed.

Lemma add_subcategory_count n db :
  NoDup (subcategories db) -> Py.truthy n = true ->
  count_occ string_dec (subcategories (add_subcategory n db)) n = 1%nat.
Proof.
  intros Hn Ht. unfold add_subcategory. rewrite Ht. cbn [andb].
  destruct (mem n (subcategories db)) eqn:Em; cbn [negb].
  - apply count_occ_unique; [exact Hn|now apply mem_In].
  - apply count_occ_appended. now apply mem_not_In.
Qed.

(** C6.  Each ensure operation is idempotent.  With a value that is blank
    after stripping it leaves the database as it was.  With any other
    value, a second call changes nothing the first call left, and after
    the two calls the lookup table has exactly one row whose key is the
    stripped value. *)
Theorem ensure_idempotent :
  forall db name,
    has_spec_schema db ->
    lookup_keys_unique db ->
    (Py.strip name = "" ->
       ensure_category name db = (Ok tt, db)
       /\ ensure_container name db = (Ok tt, db)
       /\ ensure_subcategory name db = (Ok tt, db))
    /\ (Py.strip name <> "" ->
          (exists db1,
             ensure_category name db = (Ok tt, db1)
             /\ ensure_category name db1 = (Ok tt, db1)
             /\ count_occ string_dec (categories db1) (Py.strip name) = 1%nat)
          /\ (exists db1,
                ensure_container name db = (Ok tt, db1)
                /\ ensure_container name db1 = (Ok tt, db1)
                /\ count_occ string_dec (map fst (containers db1)) (Py.strip name)
                   = 1%nat)
          /\ (exists db1,
                ensure_subcategory name db = (Ok tt, db1)
                /\ ensure_subcategory name db1 = (Ok tt, db1)
                /\ count_occ string_dec (subcategories db1) (Py.strip name)
                   = 1%nat)).
Proof.
  intros db name Hs [Hc [Hg Hsub]]. split.
  - intros E. unfold ensure_category, ensure_container, ensure_subcategory.
    rewrite E. repeat split.
  - intros Hv.
    assert (Ht : Py.truthy (Py.strip name) = true).
    { destruct (Py.truthy (Py.strip name)) eqn:E; [reflexivity|].
      now apply truthy_false in E. }
    repeat split.
    + eexists. split; [now apply ensure_category_run|]. split.
      * rewrite ensure_category_run by now apply add_category_schema.
        now rewrite add_category_twice.
      * now apply add_category_count.
    + eexists. split; [now apply ensure_container_run|]. split.
      * rewrite ensure_container_run by now apply add_container_schema.
        now rewrite add_container_twice.
      * now apply add_container_count.
    + eexists. split; [now apply ensure_subcategory_run|]. split.
      * rewrite ensure_subcategory_run by now apply add_subcategory_schema.
        now rewrite add_subcategory_twice.
      * now apply add_subcategory_count.
Qed.

Lemma sample_keys_unique : lookup_keys_unique sample_db.
Proof.
  repeat split; simpl; repeat constructor; simpl; tauto.
Defined.

Lemma ensure_idempotent_witness :
  has_spec_schema sample_db
  /\ lookup_keys_unique sample_db
  /\ (exists db1,
        ensure_category " Cap " sample_db = (Ok tt, db1)
        /\ ensure_category " Cap " db1 = (Ok tt, db1)
        /\ count_occ string_dec (categories db1) (Py.strip " Cap ") = 1%nat)
  /\ ensure_container "   " sample_db = (Ok tt, sample_db).
Proof.
  split; [reflexivity|]. split; [exact sample_keys_unique|].
  destruct (ensure_idempotent sample_db " Cap " eq_refl sample_keys_unique)
    as [_ H].
  destruct (ensure_idempotent sample_db "   " eq_refl sample_keys_unique)
    as [H0 _].
  split.
  - apply H. discriminate.
  - apply H0. reflexivity.
Defined.

(** ** Labels *)

Lemma or_empty_form_text form c : or_empty (form ("text_" ++ c)) = form_text form c.
Proof.
  unfold or_empty, form_text.
  destruct (form ("text_" ++ c)) as [[|a t]|]; reflexivity.
Qed.

Lemma labels_loop_both qr form code acc :
  fold_left (labels_step qr form "both") code acc
  = (acc ++ flat_map (both_labels qr form) code)%list.
Proof.
  revert acc. induction code as [|c code IH]; intros acc; simpl.
  - now rewrite app_nil_r.
  - rewrite IH. unfold labels_step.
    cbn [mem existsb String.eqb Ascii.eqb Bool.eqb orb].
    rewrite or_empty_form_text, <- !app_assoc. reflexivity.
Qed.

Lemma both_labels_length qr form code :
  length (flat_map (both_labels qr form) code) = (2 * length code)%nat.
Proof.
  induction code as [|c code IH]; simpl; [reflexivity|].
  simpl in IH. rewrite IH. lia.
Qed.

(** C8.  A label-print request with mode [both] and at least one code
    renders, for each submitted code in order, an asset label whose QR
    encodes the base URL followed by [/containers/] and the code, and then
    a content label whose text is the stripped form field [text_<code>],
    empty when the form has no such field: two labels per code. *)
Theorem print_labels_both :
  forall qr_base64 form preset code,
    code <> [] ->
    print_labels qr_base64 form preset "both" code
    = Render "labels_print.html"
             (LabelsPage (flat_map (both_labels qr_base64 form) code) preset)
    /\ length (flat_map (both_labels qr_base64 form) code)
       = (2 * length code)%nat
    /\ (forall i c, nth_error code i = Some c ->
          nth_error (flat_map (both_labels qr_base64 form) code) (2 * i)
          = Some (AssetLabel c (qr_base64 (BASE_URL ++ "/containers/" ++ c)))
          /\ nth_error (flat_map (both_labels qr_base64 form) code) (2 * i + 1)
             = Some (ContentLabel c (Py.strip (form_text form c)))).
Proof.
  intros qr form preset code Hne. repeat split.
  - unfold print_labels. destruct code as [|c code]; [contradiction|].
    now rewrite labels_loop_both.
  - apply both_labels_length.
  - revert i H. induction code as [|d code IH]; intros [|i] H;
      try discriminate.
    + injection H as ->. reflexivity.
    + simpl in H. replace (2 * S i)%nat with (S (S (2 * i))) by lia.
      simpl. destruct code as [|e code]; [now destruct i|].
      apply IH; [discriminate|exact H].
  - revert i H. induction code as [|d code IH]; intros [|i] H;
      try discriminate.
    + injection H as ->. reflexivity.
    + simpl in H. replace (2 * S i + 1)%nat with (S (S (2 * i + 1))) by lia.
      simpl. destruct code as [|e code]; [now destruct i|].
      apply IH; [discriminate|exact H].
Qed.

Lemma print_labels_both_witness :
  ["B12"] <> []
  /\ print_labels (fun t => t) (fun _ => Some " M3 screws ") "3348" "both" ["B12"]
     = Render "labels_print.html"
         (LabelsPage
            [AssetLabel "B12" "http://192.168.8.20:8001/containers/B12";
             ContentLabel "B12" "M3 screws"]
            "3348").
Proof.
  assert (H : ["B12"] <> []) by discriminate.
  split; [exact H|].
  exact (proj1 (print_labels_both (fun t => t) (fun _ => Some " M3 screws ")
                                  "3348" ["B12"] H)).
Defined.

(** ** Whitespace around the query *)

(** C10.  Listing with a query gives the same result as listing with the
    query stripped of surrounding whitespace. *)
Theorem fetch_parts_query_stripped :
  forall q c k limit db,
    fetch_parts (Py.strip q) c k limit db = fetch_parts q c k limit db.
Proof.
  intros. unfold fetch_parts, where_clause, q_clause.
  now rewrite strip_idem.
Qed.

(** ** ORDER BY *)

Section OrderByFacts.
Context {A : Type}.
Variable before : A -> A -> bool.
Hypothesis before_total : forall a b, before a b = true \/ before b a = true.
Hypothesis before_trans :
  forall a b c, before a b = true -> before b c = true -> before a c = true.

Lemma place_perm x l : Permutation (place before x l) (x :: l).
Proof.
  induction l as [|y l IH]; simpl; [reflexivity|].
  destruct (before x y); [reflexivity|].
  rewrite IH. apply perm_swap.
Qed.

Lemma order_by_perm l : Permutation (order_by before l) l.
Proof.
  induction l as [|x l IH]; simpl; [reflexivity|].
  rewrite place_perm. now constructor.
Qed.

Lemma place_sorted x l :
  StronglySorted (fun a b => before a b = true) l ->
  StronglySorted (fun a b => before a b = true) (place before x l).
Proof.
  induction 1 as [|y l Hs IH Hy]; simpl.
  - repeat constructor.
  - destruct (before x y) eqn:E.
    + constructor; [now constructor|].
      constructor; [exact E|].
      eapply Forall_impl; [|exact Hy].
      intros z Hz. now apply before_trans with y.
    + constructor; [exact IH|].
      assert (Hx : Forall (fun b => before y b = true) (x :: l)).
      { constructor; [|exact Hy].
        destruct (before_total x y) as [H|H]; congruence. }
      rewrite Forall_forall in *. intros z Hz. apply Hx.
      now apply (Permutation_in z (place_perm x l)).
Qed.

Lemma order_by_sorted l :
  StronglySorted (fun a b => before a b = true) (order_by before l).
Proof.
  induction l as [|x l IH]; simpl; [constructor|].
  now apply place_sorted.
Qed.
End OrderByFacts.

Lemma ascii_compare_gt_trans a b c :
  Ascii.compare a b = Gt -> Ascii.compare b c = Gt -> Ascii.compare a c = Gt.
Proof.
  unfold Ascii.compare. rewrite !N.compare_gt_iff. lia.
Qed.

Lemma string_compare_gt_trans a :
  forall b c,
    String.compare a b = Gt -> String.compare b c = Gt -> String.compare a c = Gt.
Proof.
  induction a as [|x a IH]; intros [|y b] [|z c]; simpl; try discriminate;
    try reflexivity.
  destruct (Ascii.compare x y) eqn:Exy; try discriminate;
    destruct (Ascii.compare y z) eqn:Eyz; try discriminate; intros H1 H2.
  - apply Ascii.compare_eq_iff in Exy, Eyz. subst.
    replace (Ascii.compare z z) with Eq
      by (symmetry; unfold Ascii.compare; apply N.compare_refl).
    now apply IH with b.
  - apply Ascii.compare_eq_iff in Exy. subst. now rewrite Eyz.
  - apply Ascii.compare_eq_iff in Eyz. subst. now rewrite Exy.
  - now rewrite (ascii_compare_gt_trans x y z).
Qed.




(** ** LIKE and substrings *)

Lemma like_star p s :
  Sql.like (String "%" p) s
  = Sql.like p s
    || match s with
       | EmptyString => false
       | String _ s' => Sql.like (String "%" p) s'
       end.
Proof. destruct s; reflexivity. Qed.

Lemma like_char c p s :
  Ascii.eqb c "%" = false ->
  Sql.like (String c p) s
  = match s with
    | EmptyString => false
    | String d s' =>
        (Ascii.eqb c "_" || Ascii.eqb (Sql.lower c) (Sql.lower d)) && Sql.like p s'
    end.
Proof.
  intros H. change (Sql.like (String c p) s) with
    (if Ascii.eqb c "%" then
       (fix star (t : string) : bool :=
          Sql.like p t ||
          match t with
          | EmptyString => false
          | String _ t' => star t'
          end) s
     else
       match s with
       | EmptyString => false
       | String d s' =>
           (Ascii.eqb c "_" || Ascii.eqb (Sql.lower c) (Sql.lower d))
           && Sql.like p s'
       end).
  now rewrite H.
Qed.




(** What "occurs in" means: [s] splits around a piece that equals [q] up
    to case. *)
Lemma ci_prefix_split q s :
  ci_prefix q s = true <->
  exists m r, s = m ++ r
              /\ map Sql.lower (list_ascii_of_string m)
                 = map Sql.lower (list_ascii_of_string q).
Proof.
  revert s. induction q as [|a q IH]; intros s.
  - split; [intros _; now exists "", s|reflexivity].
  - destruct s as [|b s]; simpl.
    + split; [discriminate|].
      intros [m [r [E Hm]]]. destruct m; simpl in *; discriminate.
    + rewrite andb_true_iff, IH, Ascii.eqb_eq. split.
      * intros [Hab [m [r [-> Hm]]]]. exists (String b m), r.
        simpl. now rewrite Hab, Hm.
      * intros [m [r [E Hm]]]. destruct m as [|b' m]; [discriminate|].
        simpl in E, Hm. injection E as <- ->. injection Hm as Hab Hm.
        split; [congruence|]. now exists m, r.
Qed.

Lemma ci_substring_split q s :
  ci_substring q s = true <->
  exists l m r, s = l ++ m ++ r
                /\ map Sql.lower (list_ascii_of_string m)
                   = map Sql.lower (list_ascii_of_string q).
Proof.
  induction s as [|b s IH].
  - simpl. rewrite orb_false_r, ci_prefix_split. split.
    + intros [m [r [E Hm]]]. now exists "", m, r.
    + intros [l [m [r [E Hm]]]]. destruct l; [|discriminate].
      now exists m, r.
  - simpl. rewrite orb_true_iff, IH, ci_prefix_split. split.
    + intros [[m [r [E Hm]]]|[l [m [r [E Hm]]]]].
      * now exists "", m, r.
      * exists (String b l), m, r. simpl. now rewrite E.
    + intros [l [m [r [E Hm]]]]. destruct l as [|b' l].
      * left. now exists m, r.
      * right. simpl in E. injection E as <- ->. now exists l, m, r.
Qed.

(** ** The filtered listing *)

Lemma selected_matches q c k p :
  selected (where_clause q c k) p = matches q c k p.
Proof.
  unfold selected, where_clause, q_clause, category_clause, container_clause,
    matches.
  destruct (Py.truthy (Py.strip q)), (Py.truthy (Py.strip c)),
    (Py.truthy (Py.strip k));
    cbn [app forallb holds negb orb andb];
    repeat match goal with
           | |- context [Sql.like ?a ?b] => generalize (Sql.like a b); intros []
           | |- context [String.eqb ?a ?b] => generalize (String.eqb a b); intros []
           end; reflexivity.
Qed.






(** ** Sample evaluations *)

Example int_of_text :
  Py.int "abc" = None /\ Py.int "" = None /\ Py.int " -5" = Some (-5)
  /\ Py.int "1_000" = Some 1000 /\ Py.int "1__0" = None /\ Py.int "12_" = None
  /\ Py.int "+07" = Some 7.
Proof. repeat split. Qed.

Example edit_quantity_abc :
  fst (save_cell 1 "quantity" "abc" "2025-01-03 00:00:00" sample_db)
  = Ok (Render "_row.html"
          (RowPage (mkPart 1 "Cap" "" "x" "" "B12" (Sql.CInt 0) "" "" ""
                           "2025-01-03 00:00:00"))).
Proof. reflexivity. Qed.

Example like_samples :
  Sql.like "%10K%" "res 10k 1%" = true /\ Sql.like "%ab%" "a b" = false
  /\ Sql.like "%a%b%" "axxb" = true.
Proof. repeat split. Qed.


(** * Further properties *)

(** ** Handlers that only read *)

Lemma read_only_ret {A} (a : A) : read_only (ret a).
Proof. intros db. reflexivity. Qed.

Lemma read_only_bind {A B} (m : M A) (k : A -> M B) :
  read_only m -> (forall a, read_only (k a)) -> read_only (bind m k).
Proof.
  intros Hm Hk db. unfold bind. specialize (Hm db).
  destruct (m db) as [[a|e] db1]; simpl in Hm; subst; [apply Hk|reflexivity].
Qed.

Lemma read_only_with_conn {A} (m : M A) :
  read_only m -> read_only (with_conn m).
Proof.
  intros Hm db. unfold with_conn. specialize (Hm db).
  destruct (m db) as [[a|e] db1]; [exact Hm|reflexivity].
Qed.

Lemma read_only_require t cols : read_only (require t cols).
Proof.
  intros db. unfold require.
  destruct (assoc t (db_tables db)) as [have|]; [|reflexivity].
  now destruct (first_missing cols have).
Qed.

Lemma read_only_query {A} t cols (f : DB -> A) :
  read_only (with_conn (require t cols ;;; fun db => (Ok (f db), db))).
Proof.
  apply read_only_with_conn, read_only_bind; [apply read_only_require|].
  intros _ db. reflexivity.
Qed.

Lemma read_only_fetch_parts q c k limit : read_only (fetch_parts q c k limit).
Proof. apply read_only_query. Qed.

(** X1.  The handlers behind GET requests, and the queries they run, never
    change the database: whatever the schema, and also when they raise. *)
Theorem get_handlers_read_only :
  (forall q c k limit, read_only (fetch_parts q c k limit))
  /\ (forall q c k, read_only (index q c k))
  /\ (forall q c k, read_only (partial_table q c k))
  /\ (forall part_id field, read_only (edit_cell part_id field))
  /\ (forall real_text q c k, read_only (export_csv real_text q c k))
  /\ read_only container_labels
  /\ (forall code, read_only (container_view code))
  /\ read_only list_containers /\ read_only list_categories
  /\ read_only list_subcategories
  /\ read_only list_categories_in_use /\ read_only list_containers_in_use.
Proof.
  assert (Hf := read_only_fetch_parts).
  assert (Hq : forall A t cols (f : DB -> A),
             read_only (with_conn (require t cols ;;; fun db => (Ok (f db), db))))
    by (intros; apply read_only_query).
  repeat split; intros;
    unfold index, partial_table, export_csv, container_labels, container_view,
      list_containers, list_categories, list_subcategories,
      list_categories_in_use, list_containers_in_use;
    repeat first [ apply Hf | apply Hq | apply read_only_ret
                 | apply read_only_bind; [|intros] ].
  unfold edit_cell. destruct (negb (mem field ALLOWED_EDIT_FIELDS));
    [apply read_only_ret|].
  apply read_only_bind.
  - apply read_only_with_conn. unfold select_part.
    apply read_only_bind; [apply read_only_require|]. intros _.
    apply read_only_bind; [|intros _ db; reflexivity].
    intros db. unfold bind_int. now destruct (Sql.in_int64 part_id).
  - intros [r|]; [|apply read_only_ret].
    repeat first [ apply Hq | apply read_only_ret
                 | apply read_only_bind; [|intros] ].
Qed.

(** ** Initialisation *)

Lemma bind_inv {A B} (m : M A) (k : A -> M B) db b db2 :
  bind m k db = (Ok b, db2) ->
  exists a db1, m db = (Ok a, db1) /\ k a db1 = (Ok b, db2).
Proof.
  unfold bind. destruct (m db) as [[a|e] db1]; [|discriminate].
  intros H. now exists a, db1.
Qed.

Lemma assoc_app_some {V} k (l l' : list (string * V)) :
  assoc k l <> None -> assoc k (l ++ l') = assoc k l.
Proof.
  induction l as [|[k' v] l IH]; simpl; [congruence|].
  destruct (String.eqb k k'); [reflexivity|exact IH].
Qed.

Lemma assoc_app_none {V} k (l l' : list (string * V)) :
  assoc k l = None -> assoc k (l ++ l') = assoc k l'.
Proof.
  induction l as [|[k' v] l IH]; simpl; [reflexivity|].
  destruct (String.eqb k k'); [discriminate|exact IH].
Qed.

Lemma same_rows_refl db : same_rows db db.
Proof. repeat split. Qed.

Lemma same_rows_trans a b c : same_rows a b -> same_rows b c -> same_rows a c.
Proof. unfold same_rows. intuition congruence. Qed.

Lemma create_table_run t cols db r db' :
  create_table_if_not_exists t cols db = (r, db') ->
  r = Ok tt /\ same_rows db db' /\ db_indexes db' = db_indexes db
  /\ assoc t (db_tables db') <> None
  /\ (forall have, assoc t (db_tables db) = Some have -> db' = db).
Proof.
  unfold create_table_if_not_exists.
  destruct (assoc t (db_tables db)) as [have|] eqn:E; intros [= <- <-].
  - repeat split; [now rewrite E].
  - repeat split; [|discriminate].
    cbn [db_tables with_tables]. rewrite assoc_app_none by exact E.
    simpl. now rewrite String.eqb_refl.
Qed.

Lemma create_index_run name t col db db' :
  create_index_if_not_exists name t col db = (Ok tt, db') ->
  same_rows db db' /\ db_tables db' = db_tables db
  /\ assoc name (db_indexes db') <> None
  /\ (forall n, assoc n (db_indexes db) <> None ->
                assoc n (db_indexes db') <> None).
Proof.
  unfold create_index_if_not_exists.
  destruct (assoc name (db_indexes db)) as [v|] eqn:E.
  - intros [= <-]. repeat split; [now rewrite E|auto].
  - intros H. apply bind_inv in H. destruct H as [[] [db1 [Hr H]]].
    assert (db1 = db) by (rewrite <- (read_only_require t [col] db); now rewrite Hr).
    subst db1. injection H as <-. repeat split.
    + cbn [db_indexes with_indexes]. rewrite assoc_app_none by exact E.
      simpl. now rewrite String.eqb_refl.
    + intros n Hn. cbn [db_indexes with_indexes].
      now rewrite assoc_app_some.
Qed.

Lemma create_index_present name t col db :
  assoc name (db_indexes db) <> None ->
  create_index_if_not_exists name t col db = (Ok tt, db).
Proof.
  unfold create_index_if_not_exists.
  destruct (assoc name (db_indexes db)); [reflexivity|congruence].
Qed.

Lemma create_table_present t cols db :
  assoc t (db_tables db) <> None ->
  create_table_if_not_exists t cols db = (Ok tt, db).
Proof.
  unfold create_table_if_not_exists.
  destruct (assoc t (db_tables db)); [reflexivity|congruence].
Qed.

Lemma create_index_keeps name t col db :
  same_rows db (snd (create_index_if_not_exists name t col db))
  /\ db_tables (snd (create_index_if_not_exists name t col db)) = db_tables db.
Proof.
  unfold create_index_if_not_exists.
  destruct (assoc name (db_indexes db)); [now split|].
  unfold bind. assert (Hr := read_only_require t [col] db).
  destruct (require t [col] db) as [[[]|e] db1]; cbn [snd] in *; subst db1;
    now split.
Qed.

Lemma keeps_bind {A B} (m : M A) (k : A -> M B) :
  (forall db, same_rows db (snd (m db))
              /\ db_tables (snd (m db)) = db_tables db) ->
  (forall a db, same_rows db (snd (k a db))
                /\ db_tables (snd (k a db)) = db_tables db) ->
  forall db, same_rows db (snd (bind m k db))
             /\ db_tables (snd (bind m k db)) = db_tables db.
Proof.
  intros Hm Hk db. unfold bind. specialize (Hm db).
  destruct (m db) as [[a|e] db1]; cbn [snd] in *; [|exact Hm].
  destruct Hm as [R1 T1]. destruct (Hk a db1) as [R2 T2].
  split; [eauto using same_rows_trans|congruence].
Qed.

(** X2.  [init_db] never touches a row and never alters a [parts] table
    that is already there; when it succeeds, a second run succeeds and
    changes nothing. *)
Theorem init_db_idempotent :
  forall db,
    same_rows db (snd (init_db db))
    /\ (forall cols, assoc "parts" (db_tables db) = Some cols ->
                     db_tables (snd (init_db db)) = db_tables db)
    /\ (fst (init_db db) = Ok tt ->
        init_db (snd (init_db db)) = (Ok tt, snd (init_db db))).
Proof.
  intros db. unfold init_db.
  destruct (create_table_if_not_exists "parts" parts_columns_init db)
    as [r1 db1] eqn:H1.
  destruct (create_table_run _ _ _ _ _ H1) as [-> [R1 [I1 [T1 K1]]]].
  rewrite (bind_ok _ _ _ _ _ H1).
  match goal with
  | |- context [snd (?m db1)] =>
      assert (Hk : same_rows db1 (snd (m db1))
                   /\ db_tables (snd (m db1)) = db_tables db1)
  end.
  { apply keeps_bind; [intros; apply create_index_keeps|intros _].
    apply keeps_bind; [intros; apply create_index_keeps|intros _].
    intros; apply create_index_keeps. }
  destruct Hk as [Rk Tk].
  split; [|split].
  - eauto using same_rows_trans.
  - intros cols Hc. rewrite Tk. now rewrite (K1 cols Hc).
  - destruct (bind _ _ db1) as [[[]|e] db4] eqn:E; cbn [fst snd] in *;
      [intros _|discriminate].
    apply bind_inv in E. destruct E as [[] [db2 [H2 E]]].
    apply bind_inv in E. destruct E as [[] [db3 [H3 H4]]].
    apply create_index_run in H2. destruct H2 as [R2 [T2 [N2 P2]]].
    apply create_index_run in H3. destruct H3 as [R3 [T3 [N3 P3]]].
    apply create_index_run in H4. destruct H4 as [R4 [T4 [N4 P4]]].
    rewrite (bind_ok _ _ db4 tt db4)
      by (apply create_table_present; now rewrite T4, T3, T2).
    rewrite (bind_ok _ _ db4 tt db4) by (apply create_index_present; auto).
    rewrite (bind_ok _ _ db4 tt db4) by (apply create_index_present; auto).
    now rewrite create_index_present.
Qed.

(** ** An edit writes one field *)

Lemma set_field_id field v now p : id (set_field field v now p) = id p.
Proof.
  unfold set_field.
  repeat match goal with
         | |- context [if ?b then _ else _] => destruct b
         end; reflexivity.
Qed.

Lemma text_column_allowed field get :
  text_column field = Some get ->
  In field ALLOWED_EDIT_FIELDS /\ String.eqb field "quantity" = false.
Proof.
  unfold text_column.
  repeat match goal with
         | |- context [String.eqb field ?n] =>
             destruct (String.eqb_spec field n) as [->|?];
             [intros _; split; [simpl; tauto|reflexivity]|]
         end.
  discriminate.
Qed.

Lemma set_field_text field get v now p :
  text_column field = Some get ->
  get (set_field field v now p) = v
  /\ updated_at (set_field field v now p) = now
  /\ quantity (set_field field v now p) = quantity p
  /\ (forall g other, text_column g = Some other -> g <> field ->
                      other (set_field field v now p) = other p).
Proof.
  unfold text_column at 1.
  repeat match goal with
         | |- context [String.eqb field ?n] =>
             destruct (String.eqb_spec field n) as [->|?];
             [intros [= <-]; repeat split;
              intros g other Hg Hne; unfold text_column in Hg;
              repeat match type of Hg with
                     | context [String.eqb g ?m] =>
                         destruct (String.eqb_spec g m) as [->|?];
                         [injection Hg as <-; first [reflexivity|congruence]|]
                     end; discriminate|]
         end.
  discriminate.
Qed.

(** X3.  An edit of a text field, for an id in the signed 64-bit range,
    writes the stripped value into that field of the rows with the given
    id, sets their [updated_at], and leaves their id, their quantity and
    every other text field alone; the other rows and the id counter are
    untouched, and the answer is the updated row, or 404 when no row has
    the id. *)
Theorem save_cell_writes_one_field :
  forall db part_id field get value now,
    has_spec_schema db ->
    text_column field = Some get ->
    Sql.in_int64 part_id = true ->
    exists page db',
      save_cell part_id field value now db = (Ok page, db')
      /\ Forall2 (fun p p' =>
                    if id p =? part_id then
                      id p' = id p
                      /\ get p' = Py.strip value
                      /\ updated_at p' = now
                      /\ quantity p' = quantity p
                      /\ (forall g other,
                            text_column g = Some other -> g <> field ->
                            other p' = other p)
                    else p' = p)
                 (parts db) (parts db')
      /\ parts_seq db' = parts_seq db
      /\ page = match find (fun p => id p =? part_id) (parts db') with
                | Some r => Render "_row.html" (RowPage r)
                | None => HTMLResponse "Not found" 404
                end
      /\ (find (fun p => id p =? part_id) (parts db') = None <->
          forall p, In p (parts db) -> id p <> part_id).
Proof.
  intros db part_id field get value now Hs Hg Hi.
  destruct (text_column_allowed field get Hg) as [Hf Hq].
  eexists _, _. split; [apply save_cell_run; assumption|].
  cbn [parts parts_seq with_parts]. rewrite after_ensure_parts.
  unfold bound_value. rewrite Hq.
  assert (Hseq : parts_seq (after_ensure field (Py.strip value) db) = parts_seq db).
  { unfold after_ensure, add_container, add_category, add_subcategory.
    repeat match goal with
           | |- context [if ?b then _ else _] => destruct b
           end; reflexivity. }
  split; [|split; [exact Hseq|split]].
  - induction (parts db) as [|p ps IH]; simpl; constructor; [|exact IH].
    destruct (id p =? part_id); [|reflexivity].
    split; [apply set_field_id|]. now apply set_field_text.
  - now destruct (find _ _).
  - split.
    + intros Hn p Hp E.
      assert (Hx := find_none _ _ Hn
               (if id p =? part_id
                then set_field field (Py.strip value) now p else p)).
      cbv beta in Hx.
      destruct (Z.eqb_spec (id p) part_id) as [_|Hne]; [|contradiction].
      rewrite set_field_id in Hx.
      apply Z.eqb_eq in E. rewrite E in Hx.
      assert (true = false); [|discriminate].
      apply Hx. apply in_map_iff. exists p.
      apply Z.eqb_eq in E. destruct (Z.eqb_spec (id p) part_id); [|contradiction].
      now split.
    + intros Habs. rewrite map_absent by exact Habs. now apply find_absent.
Qed.

Lemma save_cell_writes_one_field_witness :
  has_spec_schema two_parts_db
  /\ text_column "notes" = Some notes
  /\ Sql.in_int64 2 = true
  /\ exists page db',
       save_cell 2 "notes" " top drawer " "2025-02-01 10:00:00" two_parts_db
       = (Ok page, db')
       /\ parts_seq db' = parts_seq two_parts_db.
Proof.
  split; [reflexivity|]. split; [reflexivity|]. split; [reflexivity|].
  destruct (save_cell_writes_one_field two_parts_db 2 "notes" notes
              " top drawer " "2025-02-01 10:00:00" eq_refl eq_refl eq_refl)
    as [page [db' [H1 [_ [H3 _]]]]].
  exists page, db'. split; [exact H1|exact H3].
Defined.

(** ** Part ids *)

Lemma fold_max_bounds seq (l : list Z) :
  seq <= fold_right Z.max seq l
  /\ Forall (fun x => x <= fold_right Z.max seq l) l.
Proof.
  induction l as [|x l [IH1 IH2]]; simpl; [split; [lia|constructor]|].
  split; [lia|]. constructor; [lia|].
  eapply Forall_impl; [|exact IH2]. intros y Hy. cbv beta in *. lia.
Qed.

Lemma next_id_above db :
  parts_seq db < next_id db
  /\ Forall (fun p => id p < next_id db) (parts db).
Proof.
  unfold next_id.
  destruct (fold_max_bounds (parts_seq db) (map id (parts db))) as [H1 H2].
  split; [lia|].
  rewrite Forall_map in H2. eapply Forall_impl; [|exact H2].
  intros p Hp. cbv beta in *. lia.
Qed.

Lemma after_ensure_seq field v db :
  parts_seq (after_ensure field v db) = parts_seq db.
Proof.
  unfold after_ensure, add_container, add_category, add_subcategory.
  repeat match goal with
         | |- context [if ?b then _ else _] => destruct b
         end; reflexivity.
Qed.

Lemma map_id_edit part_id (f : Part -> Part) (ps : list Part) :
  (forall p, id (f p) = id p) ->
  map id (map (fun p => if id p =? part_id then f p else p) ps) = map id ps.
Proof.
  intros Hf. rewrite map_map. apply map_ext. intros p.
  destruct (id p =? part_id); [apply Hf|reflexivity].
Qed.

Lemma save_cell_db part_id field value now db :
  has_spec_schema db ->
  snd (save_cell part_id field value now db) = db
  \/ snd (save_cell part_id field value now db)
     = after_ensure field (Py.strip value) db
  \/ snd (save_cell part_id field value now db)
     = with_parts (after_ensure field (Py.strip value) db)
         (map (fun p => if id p =? part_id
                        then set_field field (bound_value field value) now p
                        else p)
              (parts (after_ensure field (Py.strip value) db)))
         (parts_seq (after_ensure field (Py.strip value) db)).
Proof.
  intros Hs. destruct (mem field ALLOWED_EDIT_FIELDS) eqn:E.
  - apply mem_In in E. destruct (Sql.in_int64 part_id) eqn:Hi.
    + right. right. now rewrite save_cell_run.
    + right. left. now rewrite save_cell_overflow.
  - left. unfold save_cell. now rewrite E.
Qed.

Lemma delete_part_db part_id db :
  has_spec_schema db ->
  snd (delete_part part_id db) = db
  \/ snd (delete_part part_id db)
     = with_parts db (filter (fun p => negb (id p =? part_id)) (parts db))
                  (parts_seq db).
Proof.
  intros Hs. destruct (Sql.in_int64 part_id) eqn:Hi.
  - right. now rewrite delete_part_run.
  - left. now rewrite delete_part_overflow.
Qed.

Lemma appended_ids_fresh db p :
  ids_fresh db ->
  id p = next_id db ->
  ids_fresh (with_parts db (parts db ++ [p])%list (next_id db)).
Proof.
  intros [Hnd Hle] Hp. destruct (next_id_above db) as [Hs1 Hlt].
  split; cbn [parts parts_seq with_parts].
  - rewrite map_app. cbn [map].
    apply NoDup_app; [exact Hnd|repeat constructor; simpl; tauto|].
    intros x Hx [E|[]]. subst x. apply in_map_iff in Hx.
    destruct Hx as [r [E Hr]].
    rewrite Forall_forall in Hlt. specialize (Hlt r Hr). lia.
  - apply Forall_app. split.
    + eapply Forall_impl; [|exact Hlt]. intros r Hr. cbv beta in *. lia.
    + repeat constructor. lia.
Qed.

Lemma adds_ids_fresh a b c db :
  ids_fresh db ->
  ids_fresh (add_subcategory a (add_container b (add_category c db))).
Proof.
  unfold ids_fresh. now destruct (adds_keep_parts a b c db) as [-> ->].
Qed.

(** X4.  Part ids stay distinct and below the AUTOINCREMENT counter under
    every writing handler, whether it succeeds or raises, and the counter
    never goes down.  A creation that succeeds gives an id above the
    counter, hence above every id given before, and moves the counter to
    it; edits and deletions keep the counter, so the id of a deleted part
    is never given again. *)
Theorem ids_never_reused :
  forall db,
    has_spec_schema db ->
    ids_fresh db ->
    (forall cat sub desc pkg cont q notes ds pin now,
       ids_fresh (snd (add_part cat sub desc pkg cont q notes ds pin now db))
       /\ parts_seq db
          <= parts_seq (snd (add_part cat sub desc pkg cont q notes ds pin now db))
       /\ (q <= Sql.int64_max -> next_id db <= Sql.int64_max ->
           exists p,
             parts (snd (add_part cat sub desc pkg cont q notes ds pin now db))
             = (parts db ++ [p])%list
             /\ parts_seq db < id p
             /\ parts_seq
                  (snd (add_part cat sub desc pkg cont q notes ds pin now db))
                = id p
             /\ (forall r, In r (parts db) -> id r < id p)))
    /\ (forall part_id field value now,
          ids_fresh (snd (save_cell part_id field value now db))
          /\ map id (parts (snd (save_cell part_id field value now db)))
             = map id (parts db)
          /\ parts_seq (snd (save_cell part_id field value now db))
             = parts_seq db)
    /\ (forall part_id,
          ids_fresh (snd (delete_part part_id db))
          /\ parts_seq (snd (delete_part part_id db)) = parts_seq db).
Proof.
  intros db Hs Hfresh. split; [|split].
  - intros cat sub desc pkg cont q notes ds pin now.
    assert (H3 := adds_ids_fresh (Py.strip sub) (Py.strip cont) (Py.strip cat)
                    db Hfresh).
    destruct (adds_keep_parts (Py.strip sub) (Py.strip cont) (Py.strip cat) db)
      as [Hp3 Hs3].
    split; [|split].
    + destruct (add_part_db cat sub desc pkg cont q notes ds pin now db Hs)
        as [->| ->]; [exact H3|].
      now apply appended_ids_fresh.
    + destruct (add_part_db cat sub desc pkg cont q notes ds pin now db Hs)
        as [->| ->]; [lia|].
      cbn [parts_seq with_parts]. rewrite next_id_adds.
      destruct (next_id_above db). lia.
    + intros Hq Hid. rewrite add_part_run; [|exact Hs| |exact Hid].
      * cbn [snd parts parts_seq with_parts]. rewrite Hp3, next_id_adds.
        destruct (next_id_above db) as [Hs1 Hlt].
        eexists. split; [reflexivity|]. cbn [new_part id].
        repeat split; [exact Hs1|].
        intros r Hr. rewrite Forall_forall in Hlt. now apply Hlt.
      * rewrite in_int64_nonneg by lia. apply Z.leb_le.
        assert (0 <= Sql.int64_max) by now vm_compute. lia.
  - intros part_id field value now. destruct Hfresh as [Hnd Hle].
    destruct (save_cell_db part_id field value now db Hs) as [->|[->| ->]].
    + repeat split; assumption.
    + rewrite after_ensure_parts, after_ensure_seq.
      unfold ids_fresh. rewrite after_ensure_parts, after_ensure_seq.
      repeat split; assumption.
    + unfold ids_fresh. cbn [parts parts_seq with_parts].
      rewrite after_ensure_parts, after_ensure_seq.
      rewrite map_id_edit by (intros; apply set_field_id).
      repeat split; [exact Hnd|].
      rewrite Forall_map. eapply Forall_impl; [|exact Hle].
      intros p Hp. cbv beta.
      destruct (id p =? part_id); [now rewrite set_field_id|exact Hp].
  - intros part_id. destruct Hfresh as [Hnd Hle].
    destruct (delete_part_db part_id db Hs) as [->| ->].
    + repeat split; assumption.
    + unfold ids_fresh. cbn [parts parts_seq with_parts]. repeat split.
      * clear Hle. induction (parts db) as [|p ps IH]; simpl; [constructor|].
        inversion Hnd as [|x l Hx Hl]; subst.
        destruct (negb (id p =? part_id)); simpl; [|now apply IH].
        constructor; [|now apply IH].
        intros Hin. apply Hx. apply in_map_iff in Hin.
        destruct Hin as [r [Hr Hin]]. apply filter_In in Hin.
        apply in_map_iff. exists r. tauto.
      * rewrite Forall_forall in *. intros p Hp. apply filter_In in Hp.
        now apply Hle.
Qed.

Lemma two_parts_ids_fresh : ids_fresh two_parts_db.
Proof.
  split; simpl.
  - repeat constructor; simpl; intuition discriminate.
  - repeat constructor; simpl; lia.
Defined.

Lemma ids_never_reused_witness :
  has_spec_schema two_parts_db
  /\ ids_fresh two_parts_db
  /\ ids_fresh (snd (delete_part 2 two_parts_db))
  /\ parts_seq (snd (delete_part 2 two_parts_db)) = parts_seq two_parts_db.
Proof.
  split; [reflexivity|]. split; [exact two_parts_ids_fresh|].
  exact (proj2 (proj2 (ids_never_reused two_parts_db eq_refl two_parts_ids_fresh))
               2).
Defined.

(** ** Lookup tables *)

Lemma lookups_grow_refl db : lookups_grow db db.
Proof. repeat split; apply incl_refl. Qed.

Lemma lookups_grow_trans a b c :
  lookups_grow a b -> lookups_grow b c -> lookups_grow a c.
Proof.
  intros [A1 [A2 A3]] [B1 [B2 B3]].
  repeat split; eapply incl_tran; eassumption.
Qed.

Lemma truthy_true n : Py.truthy n = true <-> n <> "".
Proof. destruct n; simpl; split; congruence. Qed.

Lemma add_category_grow n db :
  lookups_grow db (add_category n db)
  /\ (n <> "" -> In n (categories (add_category n db)))
  /\ (lookup_keys_unique db -> lookup_keys_unique (add_category n db)).
Proof.
  unfold add_category. destruct (Py.truthy n) eqn:Et; cbn [andb].
  - destruct (mem n (categories db)) eqn:Em; cbn [negb].
    + split; [apply lookups_grow_refl|]. split; [|auto].
      intros _. now apply mem_In.
    + split; [|split].
      * repeat split; cbn [categories containers subcategories with_categories];
          try apply incl_refl. apply incl_appl, incl_refl.
      * intros _. cbn [categories with_categories].
        apply in_or_app. right. now left.
      * intros [H1 [H2 H3]]. repeat split; try assumption.
        cbn [categories with_categories].
        apply NoDup_app; [exact H2|repeat constructor; simpl; tauto|].
        intros x Hx [E|[]]. subst x. apply mem_not_In in Em. contradiction.
  - split; [apply lookups_grow_refl|]. split; [|auto].
    intros Hn. apply truthy_true in Hn. congruence.
Qed.

Lemma add_container_grow n db :
  lookups_grow db (add_container n db)
  /\ (n <> "" -> In n (map fst (containers (add_container n db))))
  /\ (lookup_keys_unique db -> lookup_keys_unique (add_container n db)).
Proof.
  unfold add_container. destruct (Py.truthy n) eqn:Et; cbn [andb].
  - destruct (mem n (map fst (containers db))) eqn:Em; cbn [negb].
    + split; [apply lookups_grow_refl|]. split; [|auto].
      intros _. now apply mem_In.
    + split; [|split].
      * repeat split; cbn [categories containers subcategories with_containers];
          try apply incl_refl. rewrite map_app. apply incl_appl, incl_refl.
      * intros _. cbn [containers with_containers]. rewrite map_app.
        apply in_or_app. right. now left.
      * intros [H1 [H2 H3]]. repeat split; try assumption.
        cbn [containers with_containers]. rewrite map_app.
        apply NoDup_app; [exact H1|repeat constructor; simpl; tauto|].
        intros x Hx [E|[]]. simpl in E. subst x.
        apply mem_not_In in Em. contradiction.
  - split; [apply lookups_grow_refl|]. split; [|auto].
    intros Hn. apply truthy_true in Hn. congruence.
Qed.

Lemma add_subcategory_grow n db :
  lookups_grow db (add_subcategory n db)
  /\ (n <> "" -> In n (subcategories (add_subcategory n db)))
  /\ (lookup_keys_unique db -> lookup_keys_unique (add_subcategory n db)).
Proof.
  unfold add_subcategory. destruct (Py.truthy n) eqn:Et; cbn [andb].
  - destruct (mem n (subcategories db)) eqn:Em; cbn [negb].
    + split; [apply lookups_grow_refl|]. split; [|auto].
      intros _. now apply mem_In.
    + split; [|split].
      * repeat split;
          cbn [categories containers subcategories with_subcategories];
          try apply incl_refl. apply incl_appl, incl_refl.
      * intros _. cbn [subcategories with_subcategories].
        apply in_or_app. right. now left.
      * intros [H1 [H2 H3]]. repeat split; try assumption.
        cbn [subcategories with_subcategories].
        apply NoDup_app; [exact H3|repeat constructor; simpl; tauto|].
        intros x Hx [E|[]]. subst x. apply mem_not_In in Em. contradiction.
  - split; [apply lookups_grow_refl|]. split; [|auto].
    intros Hn. apply truthy_true in Hn. congruence.
Qed.

Lemma after_ensure_grow field v db :
  lookups_grow db (after_ensure field v db)
  /\ (lookup_keys_unique db -> lookup_keys_unique (after_ensure field v db)).
Proof.
  unfold after_ensure.
  destruct (String.eqb field "container_id");
    [split; apply add_container_grow|].
  destruct (String.eqb field "category");
    [split; apply add_category_grow|].
  destruct (String.eqb field "subcategory");
    [split; apply add_subcategory_grow|].
  split; [apply lookups_grow_refl|auto].
Qed.

Lemma adds_grow a b c db :
  lookups_grow db (add_subcategory a (add_container b (add_category c db)))
  /\ (lookup_keys_unique db ->
      lookup_keys_unique
        (add_subcategory a (add_container b (add_category c db)))).
Proof.
  split.
  - eapply lookups_grow_trans; [apply add_category_grow|].
    eapply lookups_grow_trans; [apply add_container_grow|].
    apply add_subcategory_grow.
  - intros H. apply add_subcategory_grow, add_container_grow,
      add_category_grow, H.
Qed.

(** X5.  No handler removes or duplicates a lookup row: after a creation,
    an edit or a deletion every category, container code and subcategory
    that was stored is still stored, and the keys of each lookup table are
    still distinct.  A deletion leaves the three tables exactly as they
    were, so the lookup rows of a deleted part stay behind. *)
Theorem lookup_rows_persist :
  forall db,
    has_spec_schema db ->
    lookup_keys_unique db ->
    (forall cat sub desc pkg cont q notes ds pin now,
       lookups_grow db (snd (add_part cat sub desc pkg cont q notes ds pin now db))
       /\ lookup_keys_unique
            (snd (add_part cat sub desc pkg cont q notes ds pin now db)))
    /\ (forall part_id field value now,
          lookups_grow db (snd (save_cell part_id field value now db))
          /\ lookup_keys_unique (snd (save_cell part_id field value now db)))
    /\ (forall part_id,
          containers (snd (delete_part part_id db)) = containers db
          /\ categories (snd (delete_part part_id db)) = categories db
          /\ subcategories (snd (delete_part part_id db)) = subcategories db).
Proof.
  intros db Hs Hu. split; [|split].
  - intros cat sub desc pkg cont q nts ds pin now.
    destruct (adds_grow (Py.strip sub) (Py.strip cont) (Py.strip cat) db)
      as [Hg Hk].
    destruct (add_part_db cat sub desc pkg cont q nts ds pin now db Hs)
      as [->| ->]; (split; [exact Hg|exact (Hk Hu)]).
  - intros.
    destruct (after_ensure_grow field (Py.strip value) db) as [Hg Hk].
    destruct (save_cell_db part_id field value now db Hs) as [->|[->| ->]].
    + split; [apply lookups_grow_refl|exact Hu].
    + split; [exact Hg|exact (Hk Hu)].
    + split; [exact Hg|exact (Hk Hu)].
  - intros.
    destruct (delete_part_db part_id db Hs) as [->| ->]; repeat split.
Qed.

Lemma two_parts_keys_unique : lookup_keys_unique two_parts_db.
Proof.
  repeat split; simpl; repeat constructor; simpl; intuition discriminate.
Defined.

Lemma lookup_rows_persist_witness :
  has_spec_schema two_parts_db
  /\ lookup_keys_unique two_parts_db
  /\ categories (snd (delete_part 2 two_parts_db)) = categories two_parts_db.
Proof.
  split; [reflexivity|]. split; [exact two_parts_keys_unique|].
  exact (proj1 (proj2 (proj2 (proj2 (lookup_rows_persist two_parts_db eq_refl
                                       two_parts_keys_unique)) 2))).
Defined.

(** ** Parts name stored lookup values *)

Lemma set_field_lookups field v now p :
  category (set_field field v now p)
  = (if String.eqb field "category" then v else category p)
  /\ container_id (set_field field v now p)
     = (if String.eqb field "container_id" then v else container_id p)
  /\ subcategory (set_field field v now p)
     = (if String.eqb field "subcategory" then v else subcategory p).
Proof.
  unfold set_field.
  repeat match goal with
         | |- context [String.eqb field ?n] =>
             destruct (String.eqb_spec field n) as [->|?]
         end; cbn; repeat split; reflexivity.
Qed.

Lemma bound_value_lookup field value :
  String.eqb field "quantity" = false -> bound_value field value = Py.strip value.
Proof. unfold bound_value. now intros ->. Qed.

Lemma covered_grow db db' (p : Part) :
  lookups_grow db db' ->
  (category p <> "" -> In (category p) (categories db))
  /\ (container_id p <> "" -> In (container_id p) (map fst (containers db)))
  /\ (subcategory p <> "" -> In (subcategory p) (subcategories db)) ->
  (category p <> "" -> In (category p) (categories db'))
  /\ (container_id p <> "" -> In (container_id p) (map fst (containers db')))
  /\ (subcategory p <> "" -> In (subcategory p) (subcategories db')).
Proof.
  intros [G1 [G2 G3]] [C1 [C2 C3]]. repeat split; intros H.
  - apply G1, C1, H.
  - apply G2, C2, H.
  - apply G3, C3, H.
Qed.

Lemma after_ensure_in field v db :
  (String.eqb field "category" = true -> v <> "" ->
   In v (categories (after_ensure field v db)))
  /\ (String.eqb field "container_id" = true -> v <> "" ->
      In v (map fst (containers (after_ensure field v db))))
  /\ (String.eqb field "subcategory" = true -> v <> "" ->
      In v (subcategories (after_ensure field v db))).
Proof.
  unfold after_ensure.
  destruct (String.eqb_spec field "container_id") as [->|?];
    [repeat split; try discriminate; intros _; apply add_container_grow|].
  destruct (String.eqb_spec field "category") as [->|?];
    [repeat split; try discriminate; intros _; apply add_category_grow|].
  destruct (String.eqb_spec field "subcategory") as [->|?];
    [repeat split; try discriminate; intros _; apply add_subcategory_grow|].
  repeat split; discriminate.
Qed.

(** X6.  If every category, container code and subcategory named by a
    stored part is a row of its lookup table, the same holds after a
    creation, an edit and a deletion: the handlers store a lookup value on
    a part only after ensuring its row. *)
Theorem parts_name_stored_lookups :
  forall db,
    has_spec_schema db ->
    lookups_cover db ->
    (forall cat sub desc pkg cont q notes ds pin now,
       lookups_cover (snd (add_part cat sub desc pkg cont q notes ds pin now db)))
    /\ (forall part_id field value now,
          lookups_cover (snd (save_cell part_id field value now db)))
    /\ (forall part_id, lookups_cover (snd (delete_part part_id db))).
Proof.
  intros db Hs Hc. unfold lookups_cover in *. split; [|split].
  - intros cat sub desc pkg cont q nts ds pin now.
    assert (H3 : Forall
              (fun p =>
                 (category p <> "" ->
                  In (category p)
                     (categories
                        (add_subcategory (Py.strip sub)
                           (add_container (Py.strip cont)
                              (add_category (Py.strip cat) db)))))
                 /\ (container_id p <> "" ->
                     In (container_id p)
                        (map fst
                           (containers
                              (add_subcategory (Py.strip sub)
                                 (add_container (Py.strip cont)
                                    (add_category (Py.strip cat) db))))))
                 /\ (subcategory p <> "" ->
                     In (subcategory p)
                        (subcategories
                           (add_subcategory (Py.strip sub)
                              (add_container (Py.strip cont)
                                 (add_category (Py.strip cat) db))))))
              (parts db)).
    { eapply Forall_impl; [|exact Hc]. intros p Hp.
      eapply covered_grow; [apply adds_grow|exact Hp]. }
    destruct (add_part_db cat sub desc pkg cont q nts ds pin now db Hs)
      as [->| ->].
    { now destruct (adds_keep_parts (Py.strip sub) (Py.strip cont)
                      (Py.strip cat) db) as [-> _]. }
    cbn [snd parts categories containers subcategories with_parts].
    destruct (adds_keep_parts (Py.strip sub) (Py.strip cont) (Py.strip cat) db)
      as [-> _].
    apply Forall_app. split; [exact H3|].
    + repeat constructor; cbn [new_part category container_id subcategory];
        intros Hn.
      * destruct (add_subcategory_grow (Py.strip sub)
                    (add_container (Py.strip cont)
                       (add_category (Py.strip cat) db))) as [[G _] _].
        destruct (add_container_grow (Py.strip cont)
                    (add_category (Py.strip cat) db)) as [[G' _] _].
        apply G, G'. now apply add_category_grow.
      * destruct (add_subcategory_grow (Py.strip sub)
                    (add_container (Py.strip cont)
                       (add_category (Py.strip cat) db))) as [[_ [G _]] _].
        apply G. now apply add_container_grow.
      * now apply add_subcategory_grow.
  - intros.
    destruct (save_cell_db part_id field value now db Hs) as [->|[->| ->]];
      [exact Hc| |].
    { rewrite after_ensure_parts.
      eapply Forall_impl; [|exact Hc]. intros p Hp.
      exact (covered_grow db (after_ensure field (Py.strip value) db) p
               (proj1 (after_ensure_grow field (Py.strip value) db)) Hp). }
    cbn [parts categories containers subcategories with_parts].
    rewrite after_ensure_parts, Forall_map.
    eapply Forall_impl; [|exact Hc]. intros p Hp. cbv beta.
    assert (Hg := covered_grow db (after_ensure field (Py.strip value) db) p
                    (proj1 (after_ensure_grow field (Py.strip value) db)) Hp).
    destruct (id p =? part_id); [|exact Hg].
    destruct (set_field_lookups field (bound_value field value) now p)
      as [-> [-> ->]].
    destruct (after_ensure_in field (Py.strip value) db) as [I1 [I2 I3]].
    destruct Hg as [G1 [G2 G3]].
    repeat split.
    + destruct (String.eqb field "category") eqn:E; [|exact G1].
      rewrite bound_value_lookup
        by (apply String.eqb_eq in E; now subst). now apply I1.
    + destruct (String.eqb field "container_id") eqn:E; [|exact G2].
      rewrite bound_value_lookup
        by (apply String.eqb_eq in E; now subst). now apply I2.
    + destruct (String.eqb field "subcategory") eqn:E; [|exact G3].
      rewrite bound_value_lookup
        by (apply String.eqb_eq in E; now subst). now apply I3.
  - intros.
    destruct (delete_part_db part_id db Hs) as [->| ->]; [exact Hc|].
    cbn [snd parts categories containers subcategories with_parts].
    rewrite Forall_forall in *. intros p Hp. apply filter_In in Hp.
    now apply Hc.
Qed.

Lemma two_parts_lookups_cover : lookups_cover two_parts_db.
Proof.
  repeat constructor; simpl; intros; tauto.
Defined.

Lemma parts_name_stored_lookups_witness :
  has_spec_schema two_parts_db
  /\ lookups_cover two_parts_db
  /\ lookups_cover
       (snd (save_cell 1 "container_id" " C7 " "2025-02-01 10:00:00" two_parts_db)).
Proof.
  split; [reflexivity|]. split; [exact two_parts_lookups_cover|].
  exact (proj1 (proj2 (parts_name_stored_lookups two_parts_db eq_refl
                         two_parts_lookups_cover))
               1 "container_id" " C7 " "2025-02-01 10:00:00").
Defined.

Lemma init_db_idempotent_witness :
  fst (init_db empty_db) = Ok tt
  /\ init_db (snd (init_db empty_db)) = (Ok tt, snd (init_db empty_db))
  /\ db_tables (snd (init_db sample_db)) = db_tables sample_db.
Proof.
  split; [reflexivity|]. split.
  - exact (proj2 (proj2 (init_db_idempotent empty_db)) eq_refl).
  - exact (proj1 (proj2 (init_db_idempotent sample_db)) _ eq_refl).
Defined.

(** ** Listing helpers *)

Lemma sql_limit_incl {A} (n : Z) (l : list A) x :
  In x (sql_limit n l) -> In x l.
Proof.
  unfold sql_limit. destruct (n <? 0); [auto|]. intros H.
  rewrite <- (firstn_skipn (Z.to_nat n) l). apply in_or_app. now left.
Qed.

Lemma sql_limit_all {A} (n : Z) (l : list A) :
  Z.of_nat (length l) <= n -> sql_limit n l = l.
Proof.
  intros H. unfold sql_limit. destruct (n <? 0); [reflexivity|].
  apply firstn_all2. lia.
Qed.

Lemma order_by_newer_perm (l : list Part) :
  Permutation (order_by newer_first l) l.
Proof. apply order_by_perm. Qed.

Lemma filter_all (l : list Part) : filter (selected []) l = l.
Proof. induction l as [|p l IH]; simpl; [reflexivity|now rewrite IH]. Qed.

Lemma listing_perm db :
  Z.of_nat (length (parts db)) <= 500 -> Permutation (listing db) (parts db).
Proof.
  intros H. unfold listing. rewrite filter_all, sql_limit_all.
  - apply order_by_newer_perm.
  - now rewrite (Permutation_length (order_by_newer_perm (parts db))).
Qed.

Lemma listing_incl db p : In p (listing db) -> In p (parts db).
Proof.
  unfold listing. intros H. apply sql_limit_incl in H.
  rewrite filter_all in H.
  now apply (Permutation_in p (order_by_newer_perm (parts db))).
Qed.

Lemma find_app_absent part_id (ps : list Part) p :
  (forall r, In r ps -> id r <> part_id) ->
  id p = part_id ->
  find (fun r => id r =? part_id) (ps ++ [p]) = Some p.
Proof.
  intros Habs Hp. induction ps as [|r ps IH]; simpl.
  - now rewrite (proj2 (Z.eqb_eq _ _) Hp).
  - destruct (Z.eqb_spec (id r) part_id) as [E|_].
    + exfalso. apply (Habs r); [now left|exact E].
    + apply IH. intros r' Hr'. apply Habs. now right.
Qed.

Lemma edit_cell_run part_id field db :
  has_spec_schema db ->
  In field ALLOWED_EDIT_FIELDS ->
  Sql.in_int64 part_id = true ->
  edit_cell part_id field db =
  (Ok match find (fun p => id p =? part_id) (parts db) with
      | None => HTMLResponse "Not found" 404
      | Some r =>
          Render "_edit_cell.html"
            (EditCellPage r field
               (order_by (fun a b => String.leb (fst a) (fst b)) (containers db))
               (order_by String.leb (categories db)))
      end, db).
Proof.
  intros Hs Hf Hi. unfold edit_cell.
  replace (mem field ALLOWED_EDIT_FIELDS) with true
    by (symmetry; now apply mem_In).
  cbn [negb].
  erewrite bind_ok
    by (apply with_conn_ok; now rewrite select_part_run by assumption).
  destruct (find _ (parts db)) as [r|]; [|reflexivity].
  unfold list_containers, list_categories.
  erewrite bind_ok
    by (apply with_conn_ok;
        erewrite bind_ok by (eapply require_ok; eauto; reflexivity);
        reflexivity).
  erewrite bind_ok
    by (apply with_conn_ok;
        erewrite bind_ok by (eapply require_ok; eauto; reflexivity);
        reflexivity).
  reflexivity.
Qed.

(** ** Creation, then reading *)

(** X7.  A creation on the schema of the spec, with a quantity of at most
    [2^63 - 1] and an id left to give, succeeds and appends one row
    holding the stripped inputs and [max q 0] under a new id; afterwards
    the edit form of that id, for any allow-listed field, shows exactly
    that row, and the returned table holds every stored part, the new one
    included, as long as fewer than 500 parts were stored before. *)
Theorem added_part_is_found :
  forall db cat sub desc pkg cont q notes ds pin now,
    has_spec_schema db ->
    q <= Sql.int64_max ->
    Sql.in_int64 (next_id db) = true ->
    exists rows db',
      add_part cat sub desc pkg cont q notes ds pin now db
      = (Ok (Render "_table.html" (TablePage rows)), db')
      /\ parts db'
         = (parts db
              ++ [new_part cat sub desc pkg cont q notes ds pin now (next_id db)])%list
      /\ (forall field, In field ALLOWED_EDIT_FIELDS ->
            exists cs gs,
              edit_cell (next_id db) field db'
              = (Ok (Render "_edit_cell.html"
                       (EditCellPage
                          (new_part cat sub desc pkg cont q notes ds pin now
                                    (next_id db))
                          field cs gs)),
                 db'))
      /\ (forall p, In p rows -> In p (parts db'))
      /\ (Z.of_nat (length (parts db)) < 500 -> Permutation rows (parts db')).
Proof.
  intros db cat sub desc pkg cont q nts ds pin now Hs Hq Hid.
  assert (Hq' : Sql.in_int64 (Z.max q 0) = true).
  { rewrite in_int64_nonneg by lia. apply Z.leb_le.
    assert (0 <= Sql.int64_max) by now vm_compute. lia. }
  eexists _, _. split.
  { apply add_part_run; [assumption..|]. now apply in_int64_spec in Hid. }
  set (db3 := add_subcategory (Py.strip sub)
                (add_container (Py.strip cont) (add_category (Py.strip cat) db))).
  assert (H3 : has_spec_schema db3) by now apply adds_schema.
  assert (Hn : next_id db3 = next_id db) by apply next_id_adds.
  assert (Hp : parts db3 = parts db) by apply adds_keep_parts.
  rewrite Hn, Hp. cbn [parts with_parts].
  split; [reflexivity|]. split; [|split].
  - intros field Hf. eexists _, _.
    rewrite edit_cell_run; [|exact H3|exact Hf|exact Hid].
    cbn [parts with_parts].
    rewrite find_app_absent; [reflexivity| |reflexivity].
    intros r Hr. destruct (next_id_above db) as [_ Hlt].
    rewrite Forall_forall in Hlt. specialize (Hlt r Hr). lia.
  - intros p Hin. apply listing_incl in Hin. exact Hin.
  - intros Hlen. apply listing_perm. cbn [parts with_parts].
    rewrite length_app. simpl. lia.
Qed.

Lemma added_part_is_found_witness :
  has_spec_schema two_parts_db
  /\ 50 <= Sql.int64_max
  /\ Sql.in_int64 (next_id two_parts_db) = true
  /\ exists rows db',
       add_part "Diode" "" " 1N4148 " "" "B12" 50 "" "" "" "2025-02-01 10:00:00"
                two_parts_db
       = (Ok (Render "_table.html" (TablePage rows)), db')
       /\ parts db'
          = (parts two_parts_db
               ++ [new_part "Diode" "" " 1N4148 " "" "B12" 50 "" "" ""
                            "2025-02-01 10:00:00" (next_id two_parts_db)])%list.
Proof.
  assert (Hq : 50 <= Sql.int64_max) by now vm_compute.
  split; [reflexivity|]. split; [exact Hq|]. split; [reflexivity|].
  destruct (added_part_is_found two_parts_db "Diode" "" " 1N4148 " "" "B12" 50
              "" "" "" "2025-02-01 10:00:00" eq_refl Hq eq_refl)
    as [rows [db' [H1 [H2 _]]]].
  exists rows, db'. split; [exact H1|exact H2].
Defined.

(** ** Deletion, then reading *)

(** X8.  A deletion on the schema of the spec, for an id in the signed
    64-bit range, removes the rows with the given id and no other;
    afterwards the returned table has no row with that id and both edit
    requests on that id are answered 404. *)
Theorem deleted_part_is_gone :
  forall db part_id,
    has_spec_schema db ->
    Sql.in_int64 part_id = true ->
    exists rows db',
      delete_part part_id db = (Ok (Render "_table.html" (TablePage rows)), db')
      /\ (forall p, In p (parts db') <-> In p (parts db) /\ id p <> part_id)
      /\ (forall p, In p rows -> In p (parts db) /\ id p <> part_id)
      /\ (forall field, In field ALLOWED_EDIT_FIELDS ->
            edit_cell part_id field db'
            = (Ok (HTMLResponse "Not found" 404), db'))
      /\ (forall field value now, In field ALLOWED_EDIT_FIELDS ->
            fst (save_cell part_id field value now db')
            = Ok (HTMLResponse "Not found" 404)).
Proof.
  intros db part_id Hs Hi.
  eexists _, _. split; [apply delete_part_run; assumption|].
  cbn [parts with_parts].
  assert (Hin : forall p,
             In p (filter (fun p => negb (id p =? part_id)) (parts db))
             <-> In p (parts db) /\ id p <> part_id).
  { intros p. rewrite filter_In, negb_true_iff, Z.eqb_neq. tauto. }
  assert (Habs : forall p,
             In p (filter (fun p => negb (id p =? part_id)) (parts db)) ->
             id p <> part_id) by (intros p Hp; now apply Hin).
  split; [exact Hin|]. split; [|split].
  - intros p Hp. apply listing_incl in Hp. now apply Hin.
  - intros field Hf. now apply edit_cell_absent.
  - intros field value now Hf.
    rewrite save_cell_absent; [reflexivity|exact Hs|exact Hf|exact Hi|exact Habs].
Qed.

Lemma deleted_part_is_gone_witness :
  has_spec_schema two_parts_db
  /\ Sql.in_int64 2 = true
  /\ exists rows db',
       delete_part 2 two_parts_db
       = (Ok (Render "_table.html" (TablePage rows)), db')
       /\ edit_cell 2 "notes" db' = (Ok (HTMLResponse "Not found" 404), db').
Proof.
  split; [reflexivity|]. split; [reflexivity|].
  destruct (deleted_part_is_gone two_parts_db 2 eq_refl eq_refl)
    as [rows [db' [H1 [_ [_ [H4 _]]]]]].
  exists rows, db'. split; [exact H1|].
  apply H4. simpl. tauto.
Defined.

(** ** One container *)

(** X9.  The container page lists stored parts only.  For a code that is
    not blank every listed part has exactly the stripped code as its
    container, and every such part is listed when at most 500 parts are
    stored; for a blank code no filter applies and the page is the whole
    unfiltered listing. *)
Theorem container_view_rows :
  forall db code,
    has_spec_schema db ->
    exists rows,
      container_view code db = (Ok (Render "container.html" (TablePage rows)), db)
      /\ (forall p, In p rows -> In p (parts db))
      /\ (Py.strip code = "" -> rows = listing db)
      /\ (Py.strip code <> "" ->
          forall p, In p rows -> container_id p = Py.strip code)
      /\ (Py.strip code <> "" ->
          Z.of_nat (length (parts db)) <= 500 ->
          forall p, In p (parts db) -> container_id p = Py.strip code ->
                    In p rows).
Proof.
  intros db code Hs. eexists. split.
  { unfold container_view.
    erewrite bind_ok by (apply fetch_parts_run; exact Hs). reflexivity. }
  assert (Hin : forall p,
             In p (sql_limit 500
                     (order_by newer_first
                        (filter (selected (where_clause "" "" code)) (parts db)))) ->
             In p (parts db) /\ selected (where_clause "" "" code) p = true).
  { intros p Hp. apply sql_limit_incl in Hp.
    apply (Permutation_in p (order_by_newer_perm _)) in Hp.
    now apply filter_In in Hp. }
  split; [intros p Hp; now apply Hin|]. split; [|split].
  - intros E. unfold where_clause, q_clause, category_clause, container_clause.
    rewrite E. reflexivity.
  - intros Hne p Hp. apply Hin in Hp. destruct Hp as [_ Hp].
    apply truthy_true in Hne.
    unfold where_clause, q_clause, category_clause, container_clause in Hp.
    rewrite Hne in Hp. simpl in Hp.
    rewrite andb_true_r in Hp. now apply String.eqb_eq.
  - intros Hne Hlen p Hp Hc.
    rewrite sql_limit_all.
    + apply (Permutation_in p (Permutation_sym (order_by_newer_perm _))).
      apply filter_In. split; [exact Hp|].
      apply truthy_true in Hne.
      unfold where_clause, q_clause, category_clause, container_clause.
      rewrite Hne. simpl. rewrite andb_true_r. now apply String.eqb_eq.
    + rewrite (Permutation_length (order_by_newer_perm _)).
      assert (H := filter_length_le
                     (selected (where_clause "" "" code)) (parts db)).
      lia.
Qed.

Lemma container_view_rows_witness :
  has_spec_schema two_parts_db
  /\ exists rows,
       container_view "  " two_parts_db
       = (Ok (Render "container.html" (TablePage rows)), two_parts_db)
       /\ rows = listing two_parts_db.
Proof.
  split; [reflexivity|].
  destruct (container_view_rows two_parts_db "  " eq_refl)
    as [rows [H1 [_ [H3 _]]]].
  exists rows. split; [exact H1|]. now apply H3.
Defined.

(** ** Label modes *)

Lemma labels_loop_asset qr form code acc :
  fold_left (labels_step qr form "asset") code acc
  = app acc (map (fun c => AssetLabel c (qr (BASE_URL ++ "/containers/" ++ c)))
                 code).
Proof.
  revert acc. induction code as [|c code IH]; intros acc; simpl.
  - now rewrite app_nil_r.
  - rewrite IH. unfold labels_step.
    cbn [mem existsb String.eqb Ascii.eqb Bool.eqb orb].
    now rewrite <- app_assoc.
Qed.

Lemma labels_loop_content qr form code acc :
  fold_left (labels_step qr form "content") code acc
  = (acc ++ map (fun c => ContentLabel c (Py.strip (form_text form c))) code)%list.
Proof.
  revert acc. induction code as [|c code IH]; intros acc; simpl.
  - now rewrite app_nil_r.
  - rewrite IH. unfold labels_step.
    cbn [mem existsb String.eqb Ascii.eqb Bool.eqb orb].
    now rewrite or_empty_form_text, <- app_assoc.
Qed.

Lemma labels_loop_other qr form mode code acc :
  mode <> "asset" -> mode <> "content" -> mode <> "both" ->
  fold_left (labels_step qr form mode) code acc = acc.
Proof.
  intros Ha Hc Hb. revert acc.
  induction code as [|c code IH]; intros acc; simpl; [reflexivity|].
  rewrite IH. unfold labels_step, mem. simpl.
  apply String.eqb_neq in Ha, Hc, Hb. now rewrite Ha, Hc, Hb.
Qed.

(** X10.  Label printing by mode.  Without a code the answer is 400,
    whatever the mode.  With codes, mode [asset] gives one asset label per
    code and never reads the form, mode [content] gives one content label
    per code, and any mode other than [asset], [content] and [both] is not
    rejected: the page is rendered with no label at all. *)
Theorem print_labels_by_mode :
  forall qr_base64 form preset mode code,
    (code = [] ->
     print_labels qr_base64 form preset mode code
     = HTMLResponse "No containers selected" 400)
    /\ (code <> [] -> mode = "asset" ->
        print_labels qr_base64 form preset mode code
        = Render "labels_print.html"
            (LabelsPage
               (map (fun c => AssetLabel c
                                (qr_base64 (BASE_URL ++ "/containers/" ++ c)))
                    code)
               preset))
    /\ (code <> [] -> mode = "content" ->
        print_labels qr_base64 form preset mode code
        = Render "labels_print.html"
            (LabelsPage
               (map (fun c => ContentLabel c (Py.strip (form_text form c))) code)
               preset))
    /\ (code <> [] -> mode <> "asset" -> mode <> "content" -> mode <> "both" ->
        print_labels qr_base64 form preset mode code
        = Render "labels_print.html" (LabelsPage [] preset)).
Proof.
  intros qr form preset mode code. repeat split.
  - now intros ->.
  - intros Hne ->. destruct code as [|c code]; [contradiction|].
    unfold print_labels. now rewrite labels_loop_asset.
  - intros Hne ->. destruct code as [|c code]; [contradiction|].
    unfold print_labels. now rewrite labels_loop_content.
  - intros Hne Ha Hc Hb. destruct code as [|c code]; [contradiction|].
    unfold print_labels. now rewrite labels_loop_other.
Qed.

Lemma print_labels_by_mode_witness :
  ["B12"; "A1"] <> [] /\ "qr" <> "asset" /\ "qr" <> "content" /\ "qr" <> "both"
  /\ print_labels (fun t => t) (fun _ => None) "3425" "qr" ["B12"; "A1"]
     = Render "labels_print.html" (LabelsPage [] "3425")
  /\ print_labels (fun t => t) (fun _ => None) "3425" "asset" ["B12"]
     = Render "labels_print.html"
         (LabelsPage [AssetLabel "B12" "http://192.168.8.20:8001/containers/B12"]
                     "3425").
Proof.
  assert (H0 : ["B12"; "A1"] <> []) by discriminate.
  assert (H1 : "qr" <> "asset") by discriminate.
  assert (H2 : "qr" <> "content") by discriminate.
  assert (H3 : "qr" <> "both") by discriminate.
  assert (H4 : ["B12"] <> []) by discriminate.
  split; [exact H0|]. split; [exact H1|]. split; [exact H2|].
  split; [exact H3|]. split.
  - exact (proj2 (proj2 (proj2 (print_labels_by_mode (fun t => t) (fun _ => None)
                                  "3425" "qr" ["B12"; "A1"]))) H0 H1 H2 H3).
  - exact (proj1 (proj2 (print_labels_by_mode (fun t => t) (fun _ => None)
                           "3425" "asset" ["B12"])) H4 eq_refl).
Defined.

(** ** Export *)



(** ** Reading back a decimal text *)














(** ** The lookup lists *)

Lemma string_leb_trans a b c :
  String.leb a b = true -> String.leb b c = true -> String.leb a c = true.
Proof.
  unfold String.leb. intros Hab Hbc.
  destruct (String.compare a c) eqn:Eac; try reflexivity.
  destruct (String.compare a b) eqn:Eab; try discriminate.
  - apply String.compare_eq_iff in Eab. subst. now rewrite Eac in Hbc.
  - assert (Eba : String.compare b a = Gt)
      by (rewrite String.compare_antisym, Eab; reflexivity).
    now rewrite (string_compare_gt_trans b a c Eba Eac) in Hbc.
Qed.

Lemma order_by_leb_sorted (l : list string) :
  StronglySorted (fun a b => String.leb a b = true) (order_by String.leb l).
Proof.
  apply order_by_sorted; [apply String.leb_total|apply string_leb_trans].
Qed.

Lemma list_categories_run db :
  has_spec_schema db ->
  list_categories db = (Ok (order_by String.leb (categories db)), db).
Proof.
  intros Hs. apply with_conn_ok.
  erewrite bind_ok by (eapply require_ok; eauto; reflexivity). reflexivity.
Qed.

Lemma list_subcategories_run db :
  has_spec_schema db ->
  list_subcategories db = (Ok (order_by String.leb (subcategories db)), db).
Proof.
  intros Hs. apply with_conn_ok.
  erewrite bind_ok by (eapply require_ok; eauto; reflexivity). reflexivity.
Qed.

Lemma list_containers_run db :
  has_spec_schema db ->
  list_containers db
  = (Ok (order_by (fun a b => String.leb (fst a) (fst b)) (containers db)), db).
Proof.
  intros Hs. apply with_conn_ok.
  erewrite bind_ok by (eapply require_ok; eauto; reflexivity). reflexivity.
Qed.

(** X13.  On the schema of the spec the three lookup lists are the rows of
    their table in ascending order of the key, none dropped and none
    added; and a value that has just been ensured, if not blank, is in the
    list read next. *)
Theorem lookup_lists_sorted :
  forall db,
    has_spec_schema db ->
    exists cs gs ss,
      list_containers db = (Ok cs, db)
      /\ list_categories db = (Ok gs, db)
      /\ list_subcategories db = (Ok ss, db)
      /\ Permutation cs (containers db)
      /\ StronglySorted (fun a b => String.leb (fst a) (fst b) = true) cs
      /\ Permutation gs (categories db)
      /\ StronglySorted (fun a b => String.leb a b = true) gs
      /\ Permutation ss (subcategories db)
      /\ StronglySorted (fun a b => String.leb a b = true) ss
      /\ (forall name, Py.strip name <> "" ->
            exists l,
              list_categories (snd (ensure_category name db))
              = (Ok l, snd (ensure_category name db))
              /\ In (Py.strip name) l)
      /\ (forall name, Py.strip name <> "" ->
            exists l,
              list_containers (snd (ensure_container name db))
              = (Ok l, snd (ensure_container name db))
              /\ In (Py.strip name) (map fst l))
      /\ (forall name, Py.strip name <> "" ->
            exists l,
              list_subcategories (snd (ensure_subcategory name db))
              = (Ok l, snd (ensure_subcategory name db))
              /\ In (Py.strip name) l).
Proof.
  intros db Hs. eexists _, _, _.
  split; [now apply list_containers_run|].
  split; [now apply list_categories_run|].
  split; [now apply list_subcategories_run|].
  split; [apply order_by_perm|].
  split.
  { apply order_by_sorted.
    - intros a b. apply String.leb_total.
    - intros a b c. apply string_leb_trans. }
  split; [apply order_by_perm|]. split; [apply order_by_leb_sorted|].
  split; [apply order_by_perm|]. split; [apply order_by_leb_sorted|].
  split; [|split].
  - intros name Hn. rewrite ensure_category_run by exact Hs. cbn [snd].
    eexists. split.
    + apply list_categories_run. now apply add_category_schema.
    + apply (Permutation_in _ (Permutation_sym (order_by_perm String.leb _))).
      now apply add_category_grow.
  - intros name Hn. rewrite ensure_container_run by exact Hs. cbn [snd].
    eexists. split.
    + apply list_containers_run. now apply add_container_schema.
    + apply (Permutation_in _
               (Permutation_map fst (Permutation_sym (order_by_perm _ _)))).
      now apply add_container_grow.
  - intros name Hn. rewrite ensure_subcategory_run by exact Hs. cbn [snd].
    eexists. split.
    + apply list_subcategories_run. now apply add_subcategory_schema.
    + apply (Permutation_in _ (Permutation_sym (order_by_perm String.leb _))).
      now apply add_subcategory_grow.
Qed.

Lemma lookup_lists_sorted_witness :
  has_spec_schema two_parts_db
  /\ exists gs,
       list_categories two_parts_db = (Ok gs, two_parts_db)
       /\ Permutation gs (categories two_parts_db).
Proof.
  split; [reflexivity|].
  destruct (lookup_lists_sorted two_parts_db eq_refl)
    as [cs [gs [ss [_ [H2 [_ [_ [_ [H6 _]]]]]]]]].
  exists gs. split; [exact H2|exact H6].
Defined.

(** ** Values in use *)





(** ** Letter case in the search *)

Lemma lower_idem c : Sql.lower (Sql.lower c) = Sql.lower c.
Proof. destruct c as [[] [] [] [] [] [] [] []]; reflexivity. Qed.

Lemma lower_percent c : Ascii.eqb (Sql.lower c) "%" = Ascii.eqb c "%".
Proof. destruct c as [[] [] [] [] [] [] [] []]; reflexivity. Qed.

Lemma lower_underscore c : Ascii.eqb (Sql.lower c) "_" = Ascii.eqb c "_".
Proof. destruct c as [[] [] [] [] [] [] [] []]; reflexivity. Qed.

Lemma is_space_lower c : Py.is_space (Sql.lower c) = Py.is_space c.
Proof. destruct c as [[] [] [] [] [] [] [] []]; reflexivity. Qed.

Lemma like_lower_text p : forall s, Sql.like p (lower_string s) = Sql.like p s.
Proof.
  induction p as [|c p IH]; intros s.
  - now destruct s.
  - destruct (Ascii.eqb c "%") eqn:E.
    + apply Ascii.eqb_eq in E. subst c.
      induction s as [|d s IHs].
      * rewrite !like_star. apply (f_equal (fun b => b || false)), (IH "").
      * cbn [lower_string]. rewrite (like_star p (String d s)).
        rewrite (like_star p (String (Sql.lower d) (lower_string s))).
        rewrite IHs. f_equal. apply (IH (String d s)).
    + destruct s as [|d s]; [reflexivity|].
      cbn [lower_string]. rewrite !like_char by exact E.
      now rewrite lower_idem, IH.
Qed.

Lemma like_lower_pattern p : forall s, Sql.like (lower_string p) s = Sql.like p s.
Proof.
  induction p as [|c p IH]; intros s; [reflexivity|].
  cbn [lower_string]. destruct (Ascii.eqb c "%") eqn:E.
  - apply Ascii.eqb_eq in E. subst c.
    change (Sql.lower "%") with "%"%char.
    induction s as [|d s IHs].
    + rewrite !like_star. now rewrite IH.
    + rewrite (like_star p (String d s)).
      rewrite (like_star (lower_string p) (String d s)).
      now rewrite IHs, IH.
  - rewrite like_char by (now rewrite lower_percent).
    rewrite like_char by exact E.
    destruct s as [|d s]; [reflexivity|].
    now rewrite lower_underscore, lower_idem, IH.
Qed.

Lemma lstrip_lower s : Py.lstrip (lower_string s) = lower_string (Py.lstrip s).
Proof.
  induction s as [|c s IH]; [reflexivity|].
  cbn [lower_string Py.lstrip]. rewrite is_space_lower.
  now destruct (Py.is_space c).
Qed.

Lemma rstrip_lower s : Py.rstrip (lower_string s) = lower_string (Py.rstrip s).
Proof.
  induction s as [|c s IH]; [reflexivity|].
  cbn [lower_string]. rewrite !rstrip_cons, IH, is_space_lower.
  destruct (Py.rstrip s); [now destruct (Py.is_space c)|reflexivity].
Qed.

Lemma strip_lower s : Py.strip (lower_string s) = lower_string (Py.strip s).
Proof. unfold Py.strip. now rewrite rstrip_lower, lstrip_lower. Qed.

Lemma lower_string_wrap s :
  "%" ++ lower_string s ++ "%" = lower_string ("%" ++ s ++ "%").
Proof.
  cbn [String.append lower_string]. change (Sql.lower "%") with "%"%char.
  f_equal. induction s as [|c s IH]; [reflexivity|].
  cbn [String.append lower_string]. now rewrite IH.
Qed.

Lemma truthy_lower s : Py.truthy (lower_string s) = Py.truthy s.
Proof. now destruct s. Qed.

Lemma matches_lower q c k p : matches (lower_string q) c k p = matches q c k p.
Proof.
  unfold matches.
  now rewrite strip_lower, truthy_lower, lower_string_wrap, !like_lower_pattern.
Qed.

(** X15.  The free-text search ignores ASCII letter case on both sides:
    the listing for a query equals the listing for the query in small
    letters, on every database and for every limit, and whether a stored
    text matches a pattern does not change when the text is put in small
    letters. *)
Theorem search_ignores_case :
  (forall q c k limit db,
     fetch_parts (lower_string q) c k limit db = fetch_parts q c k limit db)
  /\ (forall pattern text,
        Sql.like pattern (lower_string text) = Sql.like pattern text)
  /\ (forall pattern text,
        Sql.like (lower_string pattern) text = Sql.like pattern text).
Proof.
  split; [|split; [intros; apply like_lower_text|intros; apply like_lower_pattern]].
  intros q c k limit db. unfold fetch_parts.
  assert (Hn : flat_map names (where_clause (lower_string q) c k)
               = flat_map names (where_clause q c k)).
  { unfold where_clause, q_clause. rewrite strip_lower, truthy_lower.
    now destruct (Py.truthy (Py.strip q)). }
  assert (Hsel : forall p, selected (where_clause (lower_string q) c k) p
                           = selected (where_clause q c k) p).
  { intros p. rewrite !selected_matches. apply matches_lower. }
  cbv zeta. rewrite Hn. unfold with_conn, bind.
  destruct (require "parts" _ db) as [[[]|e] db1]; [|reflexivity].
  now rewrite (filter_ext _ _ Hsel).
Qed.

(** ** A quantity edit and the other columns *)

Lemma set_field_quantity_text v now p :
  updated_at (set_field "quantity" v now p) = now
  /\ forall g get, text_column g = Some get ->
                   get (set_field "quantity" v now p) = get p.
Proof.
  split; [reflexivity|].
  intros g get Hg. unfold text_column in Hg.
  repeat match type of Hg with
         | context [String.eqb g ?m] =>
             destruct (String.eqb g m); [injection Hg as <-; reflexivity|]
         end.
  discriminate.
Qed.

(** X16.  On the schema of the spec an edit of the quantity cell, for an
    id in SQLite's 64-bit range, touches nothing but the quantity and
    [updated_at] of the rows with the given id: their id and all eight text
    fields stay, the other rows stay, and so do the three lookup tables and
    the id counter.  For an id outside that range the statement raises
    [OverflowError] and no row changes. *)
Theorem quantity_edit_keeps_the_rest :
  forall db part_id value now,
    has_spec_schema db ->
    (Sql.in_int64 part_id = true ->
     exists page db',
       save_cell part_id "quantity" value now db = (Ok page, db')
       /\ Forall2 (fun p p' =>
                     if id p =? part_id then
                       id p' = id p
                       /\ updated_at p' = now
                       /\ (forall g get, text_column g = Some get ->
                                         get p' = get p)
                     else p' = p)
                  (parts db) (parts db')
       /\ same_rows (with_parts db (parts db') (parts_seq db)) db')
    /\ (Sql.in_int64 part_id = false ->
        save_cell part_id "quantity" value now db
        = (Raise OverflowError, db)).
Proof.
  intros db part_id value now Hs. split; intros Hi.
  - eexists _, _. split.
    { apply save_cell_run; [exact Hs|simpl; tauto|exact Hi]. }
    cbn [parts with_parts after_ensure String.eqb Ascii.eqb Bool.eqb]. split.
    + induction (parts db) as [|p ps IH]; simpl; constructor; [|exact IH].
      destruct (id p =? part_id); [|reflexivity].
      split; [apply set_field_id|apply set_field_quantity_text].
    + repeat split.
  - apply save_cell_overflow; [exact Hs|simpl; tauto|exact Hi].
Qed.

Lemma quantity_edit_keeps_the_rest_witness :
  has_spec_schema two_parts_db
  /\ Sql.in_int64 1 = true
  /\ exists page db',
       save_cell 1 "quantity" "12" "2025-02-01 10:00:00" two_parts_db
       = (Ok page, db')
       /\ same_rows (with_parts two_parts_db (parts db') (parts_seq two_parts_db))
                    db'.
Proof.
  split; [reflexivity|]. split; [reflexivity|].
  destruct (quantity_edit_keeps_the_rest two_parts_db 1 "12"
              "2025-02-01 10:00:00" eq_refl) as [H _].
  destruct (H eq_refl) as [page [db' [H1 [_ H3]]]].
  exists page, db'. split; [exact H1|exact H3].
Defined.

(** ** Lookup rows made by a creation *)

Lemma add_category_rows n db :
  (n = "" \/ In n (categories db) ->
   categories (add_category n db) = categories db)
  /\ (n <> "" -> ~ In n (categories db) ->
      categories (add_category n db) = (categories db ++ [n])%list)
  /\ containers (add_category n db) = containers db
  /\ subcategories (add_category n db) = subcategories db.
Proof.
  unfold add_category. destruct (Py.truthy n) eqn:Et; cbn [andb].
  - apply truthy_true in Et.
    destruct (mem n (categories db)) eqn:Em; cbn [negb].
    + apply mem_In in Em. repeat split; tauto.
    + apply mem_not_In in Em. repeat split. intros [H|H]; contradiction.
  - apply truthy_false in Et. repeat split; tauto.
Qed.

Lemma add_container_rows n db :
  (n = "" \/ In n (map fst (containers db)) ->
   containers (add_container n db) = containers db)
  /\ (n <> "" -> ~ In n (map fst (containers db)) ->
      containers (add_container n db) = (containers db ++ [(n, n)])%list)
  /\ categories (add_container n db) = categories db
  /\ subcategories (add_container n db) = subcategories db.
Proof.
  unfold add_container. destruct (Py.truthy n) eqn:Et; cbn [andb].
  - apply truthy_true in Et.
    destruct (mem n (map fst (containers db))) eqn:Em; cbn [negb].
    + apply mem_In in Em. repeat split; tauto.
    + apply mem_not_In in Em. repeat split. intros [H|H]; contradiction.
  - apply truthy_false in Et. repeat split; tauto.
Qed.

Lemma add_subcategory_rows n db :
  (n = "" \/ In n (subcategories db) ->
   subcategories (add_subcategory n db) = subcategories db)
  /\ (n <> "" -> ~ In n (subcategories db) ->
      subcategories (add_subcategory n db) = (subcategories db ++ [n])%list)
  /\ categories (add_subcategory n db) = categories db
  /\ containers (add_subcategory n db) = containers db.
Proof.
  unfold add_subcategory. destruct (Py.truthy n) eqn:Et; cbn [andb].
  - apply truthy_true in Et.
    destruct (mem n (subcategories db)) eqn:Em; cbn [negb].
    + apply mem_In in Em. repeat split; tauto.
    + apply mem_not_In in Em. repeat split. intros [H|H]; contradiction.
  - apply truthy_false in Et. repeat split; tauto.
Qed.

(** X17.  The lookup rows a creation makes, on the schema of the spec and
    for every quantity, also when the insertion of the part itself then
    fails: for each of category, container and subcategory, the table of
    the resulting database is as it was when the stripped input is empty
    or already a key, and has exactly one new last row otherwise; a new
    container is named after its code.  When the quantity and the next id
    are within SQLite's 64-bit range the handler answers with a page. *)
Theorem add_part_creates_missing_lookups :
  forall db cat sub desc pkg cont q nts ds pin now,
    has_spec_schema db ->
    let r := add_part cat sub desc pkg cont q nts ds pin now db in
    (Py.strip cat = "" \/ In (Py.strip cat) (categories db) ->
     categories (snd r) = categories db)
    /\ (Py.strip cat <> "" -> ~ In (Py.strip cat) (categories db) ->
        categories (snd r) = (categories db ++ [Py.strip cat])%list)
    /\ (Py.strip cont = "" \/ In (Py.strip cont) (map fst (containers db)) ->
        containers (snd r) = containers db)
    /\ (Py.strip cont <> "" -> ~ In (Py.strip cont) (map fst (containers db)) ->
        containers (snd r)
        = (containers db ++ [(Py.strip cont, Py.strip cont)])%list)
    /\ (Py.strip sub = "" \/ In (Py.strip sub) (subcategories db) ->
        subcategories (snd r) = subcategories db)
    /\ (Py.strip sub <> "" -> ~ In (Py.strip sub) (subcategories db) ->
        subcategories (snd r) = (subcategories db ++ [Py.strip sub])%list)
    /\ (q <= Sql.int64_max -> next_id db <= Sql.int64_max ->
        exists page, fst r = Ok page).
Proof.
  intros db cat sub desc pkg cont q nts ds pin now Hs r.
  assert (Hl : categories (snd r)
               = categories (add_subcategory (Py.strip sub)
                   (add_container (Py.strip cont)
                      (add_category (Py.strip cat) db)))
               /\ containers (snd r)
                  = containers (add_subcategory (Py.strip sub)
                      (add_container (Py.strip cont)
                         (add_category (Py.strip cat) db)))
               /\ subcategories (snd r)
                  = subcategories (add_subcategory (Py.strip sub)
                      (add_container (Py.strip cont)
                         (add_category (Py.strip cat) db)))).
  { subst r.
    destruct (add_part_db cat sub desc pkg cont q nts ds pin now db Hs)
      as [E|E]; rewrite E; repeat split. }
  destruct Hl as [Hc [Hk Hu]]. rewrite Hc, Hk, Hu.
  set (db1 := add_category (Py.strip cat) db).
  set (db2 := add_container (Py.strip cont) db1).
  destruct (add_category_rows (Py.strip cat) db) as [A1 [A2 [A3 A4]]].
  destruct (add_container_rows (Py.strip cont) db1) as [B1 [B2 [B3 B4]]].
  destruct (add_subcategory_rows (Py.strip sub) db2) as [C1 [C2 [C3 C4]]].
  fold db1 in A1, A2, A3, A4. fold db2 in B1, B2, B3, B4.
  rewrite C3, C4, B3. rewrite A3 in B1, B2. rewrite B4, A4 in C1, C2.
  repeat split; intros; auto; try congruence.
  subst r. eexists. rewrite add_part_run; [reflexivity|exact Hs| |assumption].
  apply in_int64_spec.
  assert (Sql.int64_min <= 0 <= Sql.int64_max) by (split; now vm_compute).
  lia.
Qed.

Lemma add_part_creates_missing_lookups_witness :
  has_spec_schema two_parts_db
  /\ containers
       (snd (add_part "Diode" "" "1N4148" "" " C7 " 50 "" "" ""
                      "2025-02-01 10:00:00" two_parts_db))
     = (containers two_parts_db ++ [("C7", "C7")])%list.
Proof.
  split; [reflexivity|].
  destruct (add_part_creates_missing_lookups two_parts_db "Diode" "" "1N4148" ""
              " C7 " 50 "" "" "" "2025-02-01 10:00:00" eq_refl)
    as [_ [_ [_ [H5 _]]]].
  apply H5; [discriminate|].
  simpl. intros [H|[H|[]]]; discriminate.
Defined.
